(** * gn_work_log: a shallow embedding of [tasks.py] and [main.py]

    The task lifecycle ([Task.start], [Task.pause], [Task.complete],
    [Task.add_note]), the elapsed-time computation [Task.minutes], the
    TOML (de)serialisation [TomlHelper.serialize]/[TomlHelper.deserialize],
    the text helpers [tex_clean_up], [Task.terminal_report] and
    [Task.terminal_report_with_uuid], and the document operations
    [TomlDocument._parse], [TomlDocument.write], [TomlDocument.add_task],
    [TomlDocument.update_task], [TomlDocument.errors],
    [TomlDocument.report_daily(_json)] and [TomlDocument.report_monthly].

    Conventions of the model:
    - Python exceptions are the constructors of [exn]; a method that may raise
      returns a [res].
    - Methods that mutate the task (or the document) in place are functions
      [S -> S * list string * res A]: the (possibly partly mutated) object, the
      lines printed to stdout, and the outcome. The object is returned also
      when an exception is raised, because Python has mutated it by then.
    - The clock ([datetime.now(timezone.utc)]) is an explicit argument [now].
    - All datetimes are UTC-aware (the code only builds them with
      [timezone.utc]); the tzinfo is therefore not represented.
    - Strings are ASCII strings. *)

From Stdlib Require Import ZArith QArith String Ascii List Bool Lia Permutation.
Import ListNotations.

Local Open Scope string_scope.
Local Open Scope list_scope.
Local Open Scope Z_scope.

(** ** Python exceptions and results *)

Inductive exn : Type :=
| ValueError (msg : string)
| TypeError (msg : string)
| RuntimeError (msg : string)
| IndexError (msg : string)
| KeyError (key : string)
| LookupError (msg : string)
| AttributeError (msg : string).

Inductive res (A : Type) : Type :=
| Ok (a : A)
| Raise (e : exn).
Arguments Ok {A} a.
Arguments Raise {A} e.

(** A stateful method: new state, printed lines, outcome. *)
Definition M (S A : Type) : Type := S -> S * list string * res A.

(** ** [datetime] *)

Record datetime : Type := mkdt {
  year : Z; month : Z; day : Z;
  hour : Z; minute : Z; second : Z; microsecond : Z
}.

Record date : Type := mkdate { dyear : Z; dmonth : Z; dday : Z }.

(** [datetime.date()] *)
Definition date_of (d : datetime) : date := mkdate (year d) (month d) (day d).

Definition date_eqb (a b : date) : bool :=
  (dyear a =? dyear b) && (dmonth a =? dmonth b) && (dday a =? dday b).

(** [calendar.isleap], [_days_in_month], [_days_before_month],
    [_days_before_year] and [_ymd2ord] of CPython's [datetime] module. *)
Definition is_leap (y : Z) : bool :=
  (y mod 4 =? 0) && (negb (y mod 100 =? 0) || (y mod 400 =? 0)).

Definition days_in_month (y m : Z) : Z :=
  if m =? 2 then (if is_leap y then 29 else 28)
  else if (m =? 4) || (m =? 6) || (m =? 9) || (m =? 11) then 30
  else 31.

Definition days_before_month (y m : Z) : Z :=
  nth (Z.to_nat m) [-1; 0; 31; 59; 90; 120; 151; 181; 212; 243; 273; 304; 334] 0
  + (if (m >? 2) && is_leap y then 1 else 0).

Definition days_before_year (y : Z) : Z :=
  let y1 := y - 1 in y1 * 365 + y1 / 4 - y1 / 100 + y1 / 400.

Definition toordinal (d : datetime) : Z :=
  days_before_year (year d) + days_before_month (year d) (month d) + day d.

(** The invariants every [datetime] object satisfies. *)
Definition valid_ymd (y m d : Z) : bool :=
  (1 <=? y) && (y <=? 9999) && (1 <=? m) && (m <=? 12)
  && (1 <=? d) && (d <=? days_in_month y m).

Definition valid_dt (d : datetime) : bool :=
  valid_ymd (year d) (month d) (day d)
  && (0 <=? hour d) && (hour d <? 24) && (0 <=? minute d) && (minute d <? 60)
  && (0 <=? second d) && (second d <? 60)
  && (0 <=? microsecond d) && (microsecond d <? 1000000).

(** [end - start] for two datetimes with the same tzinfo, as a total number
    of microseconds: [timedelta(days1 - days2, secs1 - secs2, us1 - us2)]. *)
Definition sub_us (e s : datetime) : Z :=
  ((toordinal e - toordinal s) * 86400
   + ((hour e * 3600 + minute e * 60 + second e)
      - (hour s * 3600 + minute s * 60 + second s))) * 1000000
  + (microsecond e - microsecond s).

(** [timedelta.seconds]: the seconds component of the normalised timedelta
    ([0 <= seconds < 86400], days and microseconds carried separately). *)
Definition td_seconds (us : Z) : Z := (us mod (86400 * 1000000)) / 1000000.

(** ** [TaskStates] and [Task] *)

Inductive TaskStates : Type := CREATED | RUNNING | PAUSED | COMPLETED.

(** The StrEnum value of each member. *)
Definition str_state (s : TaskStates) : string :=
  match s with
  | CREATED => "CREATED"
  | RUNNING => "RUNNING"
  | PAUSED => "PAUSED"
  | COMPLETED => "COMPLETED"
  end.

(** The [uuid] attribute: a [uuid.UUID] for a task built by [add_task], the
    plain string read from the file for a deserialised task
    ([Task( **toml_dict)] does not convert it). [UUIDObj] holds the
    canonical text of the UUID. *)
Inductive Uuid : Type :=
| UUIDObj (canonical : string)
| UuidStr (s : string).

(** [str(task.uuid)] *)
Definition uuid_str (u : Uuid) : string :=
  match u with UUIDObj s => s | UuidStr s => s end.

Definition interval : Type := datetime * option datetime.

(** The [status] attribute is a Python [str]: a [TaskStates] member (a
    StrEnum, hence a [str]) or the plain string read by [deserialize].
    Comparisons with [TaskStates] members are string comparisons. *)
Record Task : Type := mkTask {
  uuid : Uuid;
  description : string;
  status : string;
  times : list interval;
  notes : list string
}.

Definition is_status (s : string) (st : TaskStates) : bool :=
  String.eqb s (str_state st).

Definition set_status (st : TaskStates) (t : Task) : Task :=
  mkTask (uuid t) (description t) (str_state st) (times t) (notes t).

Definition set_times (l : list interval) (t : Task) : Task :=
  mkTask (uuid t) (description t) (status t) l (notes t).

Definition set_notes (l : list string) (t : Task) : Task :=
  mkTask (uuid t) (description t) (status t) (times t) l.

(** [l[-1]] on a list, [None] where Python raises [IndexError]. *)
Fixpoint last_opt {A : Type} (l : list A) : option A :=
  match l with
  | [] => None
  | [x] => Some x
  | _ :: l' => last_opt l'
  end.

(** [Task.minutes]. Every open interval is closed at [now] for this
    computation only (the source reads the clock once per open interval; the
    model reads it once per call). *)
Fixpoint minutes_loop (now : datetime) (seconds : Z) (l : list interval) : res Z :=
  match l with
  | [] => Ok seconds
  | (start, e) :: l' =>
      let end_ := match e with Some x => x | None => now end in
      if negb (date_eqb (date_of end_) (date_of start))
      then Raise (RuntimeError "We expect all end dates to happen in the same day")
      else minutes_loop now (seconds + td_seconds (sub_us end_ start)) l'
  end.

Definition minutes (now : datetime) (t : Task) : res Q :=
  match minutes_loop now 0 (times t) with
  | Ok seconds => Ok (inject_Z seconds / inject_Z 60)%Q
  | Raise e => Raise e
  end.

(** [Task.start] *)
Definition start (now : datetime) : M Task unit := fun t =>
  let t1 := if is_status (status t) CREATED || is_status (status t) PAUSED
            then set_status RUNNING t else t in
  match last_opt (times t1) with
  | Some (_, None) =>
      (t1, [], Raise (TypeError (uuid_str (uuid t1) ++ " has incorrect times: ")%string))
  | _ => (set_times (times t1 ++ [(now, None)]) t1, [], Ok tt)
  end.

(** [Task.pause] *)
Definition pause (now : datetime) : M Task unit := fun t =>
  if negb (is_status (status t) RUNNING) then (t, ["Task is not running"], Ok tt)
  else
    let t1 := set_status PAUSED t in
    match last_opt (times t1) with
    | None => (t1, [], Raise (IndexError "list index out of range"))
    | Some (_, Some _) =>
        (t1, [], Raise (TypeError (uuid_str (uuid t1)
                                   ++ " Previous time had an actual value: ")%string))
    | Some (prev_start, None) =>
        (set_times (removelast (times t1) ++ [(prev_start, Some now)]) t1, [], Ok tt)
    end.

(** [Task.complete] *)
Definition complete (now : datetime) : M Task unit := fun t =>
  if negb (is_status (status t) RUNNING) then (t, ["Task is not running"], Ok tt)
  else
    let t1 := set_status COMPLETED t in
    match last_opt (times t1) with
    | None => (t1, [], Raise (IndexError "list index out of range"))
    | Some (_, Some _) =>
        (t1, [], Raise (TypeError (uuid_str (uuid t1)
                                   ++ " Previous time had an actual value: ")%string))
    | Some (prev_start, None) =>
        (set_times (removelast (times t1) ++ [(prev_start, Some now)]) t1, [], Ok tt)
    end.

(** [Task.add_note] *)
Definition add_note (note : string) : M Task unit := fun t =>
  (set_notes (notes t ++ [note]) t, [], Ok tt).

(** ** [DATE_FORMAT = "%Y-%m-%dT%H:%M"]: [strftime] *)

Definition digit_char (k : Z) : ascii := ascii_of_nat (48 + Z.to_nat k).

(** [%m], [%d], [%H], [%M]: two zero-padded digits. *)
Definition pad2 (n : Z) : string :=
  String (digit_char (n / 10)) (String (digit_char (n mod 10)) EmptyString).

(** [%Y]: four zero-padded digits (the theorems below only use years
    1000..9999, where every CPython build prints exactly these digits). *)
Definition pad4 (n : Z) : string :=
  String (digit_char (n / 1000))
    (String (digit_char ((n / 100) mod 10))
       (String (digit_char ((n / 10) mod 10))
          (String (digit_char (n mod 10)) EmptyString))).

Definition strftime (d : datetime) : string :=
  pad4 (year d) ++ String "-" (pad2 (month d) ++ String "-" (pad2 (day d)
  ++ String "T" (pad2 (hour d) ++ String ":" (pad2 (minute d)))))%string.

(** [date.isoformat()]: ["%04d-%02d-%02d"]. *)
Definition isoformat (d : date) : string :=
  pad4 (dyear d) ++ String "-" (pad2 (dmonth d) ++ String "-" (pad2 (dday d)))%string.

(** ** [datetime.strptime(s, DATE_FORMAT)]

    CPython's [_strptime] compiles the format to the regular expression
    [(?P<Y>\d\d\d\d)-(?P<m>1[0-2]|0[1-9]|[1-9])-(?P<d>3[0-1]|[1-2]\d|0[1-9]|[1-9]| [1-9])T(?P<H>2[0-3]|[0-1]\d|\d):(?P<M>[0-5]\d|\d)]
    with [re.IGNORECASE], runs [re.match] (anchored at the start, ordered
    alternation with backtracking), fails with "unconverted data remains"
    when the match does not reach the end of the string, converts the
    groups with [int] and finally builds the date, which fails for a day
    outside the month and for year 0. The matcher below is written in
    continuation-passing style: each alternative calls the continuation, and
    the next alternative is tried when the continuation fails. *)

Definition code (c : ascii) : Z := Z.of_nat (nat_of_ascii c).

Definition dval (c : ascii) : Z := code c - 48.

(** The class [[lo-hi]] of ASCII digits. *)
Definition dig (lo hi : Z) (c : ascii) : bool :=
  (48 + lo <=? code c) && (code c <=? 48 + hi).

Definition anyd : ascii -> bool := dig 0 9.

Definition orelse {R : Type} (a b : option R) : option R :=
  match a with Some r => Some r | None => b end.

Section Matcher.
Context {R : Type}.

(** Two characters of the given classes, value [int] of both. *)
Definition two (p1 p2 : ascii -> bool) (s : string) (k : Z -> string -> option R)
  : option R :=
  match s with
  | String a (String b s') => if p1 a && p2 b then k (10 * dval a + dval b) s' else None
  | _ => None
  end.

(** One character of the given class. *)
Definition one (p : ascii -> bool) (s : string) (k : Z -> string -> option R)
  : option R :=
  match s with
  | String a s' => if p a then k (dval a) s' else None
  | _ => None
  end.

(** [" [1-9]"]: a space and a digit; [int(" 5")] is 5. *)
Definition sp_one (p : ascii -> bool) (s : string) (k : Z -> string -> option R)
  : option R :=
  match s with
  | String a (String b s') =>
      if Ascii.eqb a " "%char && p b then k (dval b) s' else None
  | _ => None
  end.

Definition p_Y (s : string) (k : Z -> string -> option R) : option R :=
  match s with
  | String a (String b (String c (String d s'))) =>
      if anyd a && anyd b && anyd c && anyd d
      then k (1000 * dval a + 100 * dval b + 10 * dval c + dval d) s'
      else None
  | _ => None
  end.

Definition p_m (s : string) (k : Z -> string -> option R) : option R :=
  orelse (two (dig 1 1) (dig 0 2) s k)
 (orelse (two (dig 0 0) (dig 1 9) s k)
         (one (dig 1 9) s k)).

Definition p_d (s : string) (k : Z -> string -> option R) : option R :=
  orelse (two (dig 3 3) (dig 0 1) s k)
 (orelse (two (dig 1 2) anyd s k)
 (orelse (two (dig 0 0) (dig 1 9) s k)
 (orelse (one (dig 1 9) s k)
         (sp_one (dig 1 9) s k)))).

Definition p_H (s : string) (k : Z -> string -> option R) : option R :=
  orelse (two (dig 2 2) (dig 0 3) s k)
 (orelse (two (dig 0 1) anyd s k)
         (one anyd s k)).

Definition p_M (s : string) (k : Z -> string -> option R) : option R :=
  orelse (two (dig 0 5) anyd s k) (one anyd s k).

(** A literal character, matched ignoring ASCII case ([re.IGNORECASE]). *)
Definition lower_char (c : ascii) : ascii :=
  if (65 <=? code c) && (code c <=? 90) then ascii_of_nat (nat_of_ascii c + 32) else c.

Definition lit (c : ascii) (s : string) (k : string -> option R) : option R :=
  match s with
  | String a s' => if Ascii.eqb (lower_char a) (lower_char c) then k s' else None
  | _ => None
  end.

End Matcher.

Definition groups : Type := (Z * Z * Z * Z * Z * string)%type.

Definition re_match (s : string) : option groups :=
  p_Y s (fun y s => lit "-"%char s (fun s =>
  p_m s (fun mo s => lit "-"%char s (fun s =>
  p_d s (fun d s => lit "T"%char s (fun s =>
  p_H s (fun h s => lit ":"%char s (fun s =>
  p_M s (fun mi s => Some (y, mo, d, h, mi, s)))))))))).

Definition strptime (s : string) : res datetime :=
  match re_match s with
  | None => Raise (ValueError "time data does not match format")
  | Some (y, mo, d, h, mi, rest) =>
      if negb (String.eqb rest "") then Raise (ValueError ("unconverted data remains: " ++ rest)%string)
      else if valid_ymd y mo d then Ok (mkdt y mo d h mi 0 0)
      else Raise (ValueError "day is out of range for month")
  end.

(** [str.lower()] on ASCII strings. *)
Fixpoint lower (s : string) : string :=
  match s with
  | EmptyString => EmptyString
  | String c s' => String (lower_char c) (lower s')
  end.

(** ** [TomlHelper]

    A serialised task: the TOML table [{uuid, description, status, times,
    notes}] with [times] a list of two-element string arrays. *)
Record SerTask : Type := mkSer {
  s_uuid : string;
  s_description : string;
  s_status : string;
  s_times : list (string * string);
  s_notes : list string
}.

(** [TomlHelper.serialize(task)] (with [with_minutes=False], as every caller
    uses it); an open end is written as [str(None)]. *)
Definition ser_end (y : option datetime) : string :=
  match y with None => "None" | Some y => strftime y end.

Definition serialize (t : Task) : SerTask :=
  mkSer (uuid_str (uuid t)) (description t) (status t)
        (map (fun '(x, y) => (strftime x, ser_end y)) (times t))
        (notes t).

Fixpoint deser_times (l : list (string * string)) : res (list interval) :=
  match l with
  | [] => Ok []
  | (x, y) :: l' =>
      match strptime x with
      | Raise e => Raise e
      | Ok x' =>
          let y' := if String.eqb (lower y) "none" then Ok None
                    else match strptime y with
                         | Ok v => Ok (Some v) | Raise e => Raise e end in
          match y' with
          | Raise e => Raise e
          | Ok y'' =>
              match deser_times l' with
              | Raise e => Raise e
              | Ok r => Ok ((x', y'') :: r)
              end
          end
      end
  end.

(** [TomlHelper.deserialize(toml_dict)]: [Task( **toml_dict)] keeps the
    uuid and status strings as they are. *)
Definition deserialize (x : SerTask) : res Task :=
  match deser_times (s_times x) with
  | Raise e => Raise e
  | Ok ts => Ok (mkTask (UuidStr (s_uuid x)) (s_description x) (s_status x) ts (s_notes x))
  end.

(** ** [TomlDocument] *)

Inductive Actions : Type := START | PAUSE | COMPLETE | NOTE.

(** The document: [working_date], the opaque non-list top-level entries
    [other_data], the date-keyed task lists [tasks_data] (a Python dict, kept
    in insertion order) and the content last written to the file. *)
Record Doc : Type := mkDoc {
  working_date : date;
  other_data : list (string * string);
  tasks_data : list (string * list Task);
  written : list (string * string) * list (string * list SerTask)
}.

Fixpoint assoc {A : Type} (k : string) (l : list (string * A)) : option A :=
  match l with
  | [] => None
  | (k', v) :: l' => if String.eqb k k' then Some v else assoc k l'
  end.

Fixpoint assoc_set {A : Type} (k : string) (v : A) (l : list (string * A))
  : list (string * A) :=
  match l with
  | [] => []
  | (k', v') :: l' => if String.eqb k k' then (k', v) :: l' else (k', v') :: assoc_set k v l'
  end.

Definition set_tasks_data (l : list (string * list Task)) (d : Doc) : Doc :=
  mkDoc (working_date d) (other_data d) l (written d).

(** [TomlDocument.write] *)
Definition write (d : Doc) : Doc :=
  mkDoc (working_date d) (other_data d) (tasks_data d)
        (other_data d, map (fun '(k, ts) => (k, map serialize ts)) (tasks_data d)).

(** Python's [fragment in s] on strings. *)
Fixpoint contains (frag s : string) : bool :=
  prefix frag s || match s with
                   | EmptyString => false
                   | String _ s' => contains frag s'
                   end.

Definition matches (frag : string) (x : Task) : bool := contains frag (uuid_str (uuid x)).

Definition notfound_msg (frag : string) : string :=
  "No tasks found. Try to use the correct uuid. Used " ++ frag.

Definition ambiguous_msg (frag : string) : string :=
  "More than 1 task found. Try to add more text to your uuid. Used " ++ frag.

(** Lines 152-161 of [update_task]: the tasks of the day whose uuid contains
    the fragment, and the two [LookupError]s. *)
Definition select_task (frag : string) (today_tasks : list Task) : res Task :=
  match filter (matches frag) today_tasks with
  | [] => Raise (LookupError (notfound_msg frag))
  | [t] => Ok t
  | _ => Raise (LookupError (ambiguous_msg frag))
  end.

(** The [match action] of [update_task]. *)
Definition run_action (action : Actions) (note : option string) (now : datetime)
  : M Task unit :=
  match action with
  | START => start now
  | PAUSE => pause now
  | COMPLETE => complete now
  | NOTE => fun t =>
      match note with
      | None => (t, [], Raise (AttributeError "Expected valid note but got None"))
      | Some "" => (t, [], Raise (AttributeError "Expected valid note but got "))
      | Some n => add_note n t
      end
  end.

(** [TomlDocument.update_task]. The selected task is mutated in place, so
    the list of the working date sees the new task (the selected task is the
    only element of that list whose uuid contains the fragment). The file is
    written only when the action returns normally. *)
Definition update_task (now : datetime) (frag : string) (action : Actions)
  (note : option string) : M Doc unit := fun d =>
  let working_key := isoformat (working_date d) in
  match assoc working_key (tasks_data d) with
  | None => (d, [], Raise (KeyError working_key))
  | Some today_tasks =>
      match select_task frag today_tasks with
      | Raise e => (d, [], Raise e)
      | Ok t =>
          let '(t', out, r) := run_action action note now t in
          let today' := map (fun x => if matches frag x then t' else x) today_tasks in
          let d' := set_tasks_data (assoc_set working_key today' (tasks_data d)) d in
          match r with
          | Raise e => (d', out, Raise e)
          | Ok _ => (write d', out, Ok tt)
          end
      end
  end.

(** [t.report()]: [Task] defines [terminal_report] and
    [terminal_report_with_uuid] but no [report], so the attribute lookup
    raises. *)
Definition task_report (t : Task) : res string :=
  Raise (AttributeError "'Task' object has no attribute 'report'").

(** Lines 182-187 of [errors]: the incomplete tasks of every other date. *)
Fixpoint collect_errors (today_key : string) (l : list (string * list Task))
  : list (string * list Task) :=
  match l with
  | [] => []
  | (dt, ts) :: l' =>
      if String.eqb dt today_key then collect_errors today_key l'
      else
        let error_tasks := filter (fun t => negb (is_status (status t) COMPLETED)) ts in
        match error_tasks with
        | [] => collect_errors today_key l'
        | _ => (dt, error_tasks) :: collect_errors today_key l'
        end
  end.

Fixpoint print_tasks (ts : list Task) : list string * res unit :=
  match ts with
  | [] => ([], Ok tt)
  | t :: ts' =>
      match task_report t with
      | Raise e => ([], Raise e)
      | Ok line => let '(o, r) := print_tasks ts' in (line :: o, r)
      end
  end.

Definition esc : string := String (ascii_of_nat 27) EmptyString.

Definition date_header (dt : string) : string :=
  esc ++ "[1;33m" ++ dt ++ esc ++ "[0m".

Fixpoint print_errors (errs : list (string * list Task)) : list string * res unit :=
  match errs with
  | [] => ([], Ok tt)
  | (dt, ts) :: rest =>
      let '(o1, r1) := print_tasks ts in
      match r1 with
      | Raise e => (date_header dt :: o1, Raise e)
      | Ok _ => let '(o2, r2) := print_errors rest in (date_header dt :: o1 ++ o2, r2)
      end
  end.

(** [TomlDocument.errors]; "today" is the UTC date of [now]. *)
Definition errors (now : datetime) : M Doc unit := fun d =>
  let today_key := isoformat (date_of now) in
  match collect_errors today_key (tasks_data d) with
  | [] => (d, ["No errors found"], Ok tt)
  | errs => let '(o, r) := print_errors errs in (d, o, r)
  end.

(** ** Running methods one after the other

    Two statements in sequence: the second runs on the object the first
    left, unless the first raised; the printed lines accumulate. *)
Definition seqM {S : Type} (a b : M S unit) : M S unit := fun s =>
  let '(s1, o1, r1) := a s in
  match r1 with
  | Raise e => (s1, o1, Raise e)
  | Ok _ => let '(s2, o2, r2) := b s1 in (s2, o1 ++ o2, r2)
  end.

(** ** [tex_clean_up] *)

(** The ASCII characters [str.split()] and [str.strip()] treat as
    whitespace: tab, line feed, vertical tab, form feed, carriage return,
    the separators 0x1c-0x1f and the space. *)
Definition is_space (c : ascii) : bool :=
  ((9 <=? code c) && (code c <=? 13)) || ((28 <=? code c) && (code c <=? 32)).

(** [str.lstrip()] and [str.rstrip()] without arguments. *)
Fixpoint lstrip (s : string) : string :=
  match s with
  | EmptyString => EmptyString
  | String c s' => if is_space c then lstrip s' else s
  end.

Fixpoint rstrip (s : string) : string :=
  match s with
  | EmptyString => EmptyString
  | String c s' =>
      let r := rstrip s' in
      if is_space c && String.eqb r "" then EmptyString else String c r
  end.

(** [str.strip()] *)
Definition str_strip (s : string) : string := rstrip (lstrip s).

(** [str.split()] without arguments: the maximal runs of non-whitespace
    characters; [cur] is the word read so far. *)
Fixpoint split_aux (s cur : string) : list string :=
  match s with
  | EmptyString => if String.eqb cur "" then [] else [cur]
  | String c s' =>
      if is_space c
      then (if String.eqb cur "" then split_aux s' "" else cur :: split_aux s' "")
      else split_aux s' (cur ++ String c EmptyString)%string
  end.

Definition str_split (s : string) : list string := split_aux s "".

(** [word.replace("_", "\_")]: the Python literal ["\_"] is a backslash
    followed by an underscore. *)
Fixpoint escape_underscores (s : string) : string :=
  match s with
  | EmptyString => EmptyString
  | String c s' =>
      if Ascii.eqb c "_"%char
      then String "\"%char (String "_"%char (escape_underscores s'))
      else String c (escape_underscores s')
  end.

(** The body of the loop of [tex_clean_up]. *)
Definition clean_word (w : string) : string :=
  if String.prefix "http" (str_strip w) then ("\href{" ++ w ++ "}{link}")%string
  else escape_underscores w.

(** [tex_clean_up] *)
Definition tex_clean_up (sentence : string) : string :=
  String.concat " " (map clean_word (str_split (str_strip sentence))).

(** Reading a LaTeX-escaped word back: every backslash-underscore pair
    becomes an underscore. (Not in the source: used to state that the
    escaping loses nothing.) *)
Fixpoint tex_unescape (s : string) : string :=
  match s with
  | String c1 ((String c2 s'') as s') =>
      if Ascii.eqb c1 "\"%char && Ascii.eqb c2 "_"%char
      then String "_"%char (tex_unescape s'')
      else String c1 (tex_unescape s')
  | String c1 EmptyString => String c1 EmptyString
  | EmptyString => EmptyString
  end.

(** ** The daily and monthly reports *)

Definition nl : string := String (ascii_of_nat 10) EmptyString.

Definition dq : string := String (ascii_of_nat 34) EmptyString.

(** The exceptions the reports raise: those of [exn], and the
    [NotImplementedError] of an unsupported output format. *)
Inductive report_exn : Type :=
| PyExn (e : exn)
| NotImplementedError (msg : string).

(** The running total of a report: it starts as the [int] 0 ([None]) and is
    a float once a task's minutes were added ([Some q]). The sum is kept
    exact; the rounding of float additions shows only in the printed text,
    which is a parameter. *)
Definition add_total (total : option Q) (m : Q) : option Q :=
  match total with None => Some m | Some q => Some (q + m)%Q end.





Section Reports.

(** [str()] of a Python float, as printed by an f-string. *)
Variable float_str : Q -> string.

(** [f"Total time: {total_time // 60} Hrs { total_time % 60 } minutes"] once
    [total_time] is a float. *)
Variable total_line : Q -> string.

(** [json.dumps] of a list of serialised tasks. *)
Variable json_dumps : list SerTask -> string.

Variable now : datetime.

(** The notes block of [Task.terminal_report]. *)
Definition notes_text (ns : list string) : string :=
  let s := String.concat nl (map (fun x => "  - " ++ x)%string ns) in
  if String.eqb s "" then s else (nl ++ s)%string.

(** [Task.terminal_report] *)
Definition terminal_report (t : Task) : res string :=
  let st := if negb (is_status (status t) COMPLETED) then status t else "" in
  let ns := notes_text (notes t) in
  match minutes now t with
  | Raise e => Raise e
  | Ok m => Ok ("- " ++ description t ++ ": " ++ float_str m ++ " " ++ st ++ ns)%string
  end.

(** [Task.terminal_report_with_uuid] *)
Definition terminal_report_with_uuid (t : Task) : res string :=
  match terminal_report t with
  | Raise e => Raise e
  | Ok s => Ok (uuid_str (uuid t) ++ " " ++ s)%string
  end.

Definition total_text (total : option Q) : string :=
  match total with
  | None => "Total time: 0 Hrs 0 minutes"
  | Some q => total_line q
  end.

(** The loop of [report_daily] (lines 84-94). *)
Fixpoint daily_loop (output_format : string) (ts : list Task) (total : option Q)
  : list string * option report_exn :=
  match ts with
  | [] => ([total_text total], None)
  | t :: ts' =>
      let line := if String.eqb output_format "email" then Some (terminal_report t)
                  else if String.eqb output_format "terminal"
                  then Some (terminal_report_with_uuid t)
                  else None in
      match line with
      | None =>
          ([], Some (NotImplementedError
                      ("Output format: " ++ output_format ++ " not supported")%string))
      | Some (Raise e) => ([], Some (PyExn e))
      | Some (Ok l) =>
          match minutes now t with
          | Raise e => ([l], Some (PyExn e))
          | Ok m =>
              let '(o, r) := daily_loop output_format ts' (add_total total m) in (l :: o, r)
          end
      end
  end.

(** [TomlDocument.report_daily_json] *)
Definition report_daily_json (d : Doc) : list string :=
  match assoc (isoformat (working_date d)) (tasks_data d) with
  | None => [dq ++ "No tasks found" ++ dq]%string
  | Some ts => [json_dumps (map serialize ts)]
  end.

(** [TomlDocument.report_daily]: the printed lines and the exception, if
    any. *)
Definition report_daily (output_format : string) (d : Doc)
  : list string * option report_exn :=
  if String.eqb output_format "json" then (report_daily_json d, None)
  else
    match assoc (isoformat (working_date d)) (tasks_data d) with
    | None => (["No tasks found"], None)
    | Some ts => daily_loop output_format ts None
    end.




End Reports.

(** ** The TOML file: [_parse], [write], [add_task]

    A top-level value of the file: an array of task tables, or any other
    value, kept opaque. [toml.load] is taken to read back the dict that
    [toml.dump] wrote. *)
Inductive TomlValue : Type :=
| TOther (v : string)
| TTasks (l : list SerTask).

(** [d[k] = v] on a dict: a present key keeps its place, a new key goes
    last. *)
Definition dict_set {A : Type} (k : string) (v : A) (l : list (string * A))
  : list (string * A) :=
  match assoc k l with Some _ => assoc_set k v l | None => l ++ [(k, v)] end.

(** [d.setdefault(k, v)] *)
Definition dict_setdefault {A : Type} (k : string) (v : A) (l : list (string * A))
  : list (string * A) :=
  match assoc k l with Some _ => l | None => l ++ [(k, v)] end.

(** The dict [write] dumps (lines 197-200), from the pair the model records
    in [written]. *)
Definition toml_content (w : list (string * string) * list (string * list SerTask))
  : list (string * TomlValue) :=
  fold_left (fun acc '(k, ts) => dict_set k (TTasks ts) acc) (snd w)
            (map (fun '(k, v) => (k, TOther v)) (fst w)).

(** [[tasks.TomlHelper.deserialize(x) for x in value]] *)
Fixpoint deser_all (l : list SerTask) : res (list Task) :=
  match l with
  | [] => Ok []
  | x :: l' =>
      match deserialize x with
      | Raise e => Raise e
      | Ok t => match deser_all l' with Raise e => Raise e | Ok ts => Ok (t :: ts) end
      end
  end.

(** The loop of [TomlDocument._parse] (lines 46-51). *)
Fixpoint parse_loop (data : list (string * TomlValue)) (other_data : list (string * string))
  (tasks_data : list (string * list Task))
  : res (list (string * string) * list (string * list Task)) :=
  match data with
  | [] => Ok (other_data, tasks_data)
  | (key, TOther v) :: data' => parse_loop data' (dict_set key v other_data) tasks_data
  | (key, TTasks value) :: data' =>
      match deser_all value with
      | Raise e => Raise e
      | Ok parsed_tasks => parse_loop data' other_data (dict_set key parsed_tasks tasks_data)
      end
  end.

(** [TomlDocument._parse] on the loaded dict. *)
Definition parse (data : list (string * TomlValue))
  : res (list (string * string) * list (string * list Task)) :=
  parse_loop data [] [].

(** [TomlDocument.add_task]; [u] is the text of the fresh [uuid.uuid4()]. *)
Definition add_task (u : string) (description : string) (dt : date) : M Doc unit := fun d =>
  let task := mkTask (UUIDObj u) description (str_state CREATED) [] [] in
  let today_key := isoformat dt in
  let l1 := dict_setdefault today_key [] (tasks_data d) in
  let l2 := match assoc today_key l1 with
            | Some ts => assoc_set today_key (ts ++ [task]) l1
            | None => l1
            end in
  (write (set_tasks_data l2 d), ["task added: " ++ u]%string, Ok tt).

(** ** Predicates and sample data used by the proofs *)

(** The datetime with its seconds and microseconds dropped. *)
Definition trunc_minute (d : datetime) : datetime :=
  mkdt (year d) (month d) (day d) (hour d) (minute d) 0 0.

(** A datetime every CPython build formats with [DATE_FORMAT] as 16
    characters. *)
Definition ts_ok (d : datetime) : bool := valid_dt d && (1000 <=? year d).

(** A [times] entry as [serialize] writes it for a representable datetime. *)
Definition ts_string_ok (s : string) : Prop := exists d, ts_ok d = true /\ s = strftime d.

(** A well-formed serialised record: every start is such a timestamp, every
    end is such a timestamp or the sentinel [str(None)]. *)
Definition ser_wf (x : SerTask) : Prop :=
  Forall (fun p => ts_string_ok (fst p) /\ (snd p = "None" \/ ts_string_ok (snd p)))
         (s_times x).

Definition ser_interval (p : interval) : string * string :=
  let '(x, y) := p in (strftime x, ser_end y).

(** A task's timestamps are all representable. *)
Definition interval_ok (p : interval) : Prop :=
  let '(s, e) := p in ts_ok s = true /\ (forall x, e = Some x -> ts_ok x = true).

Definition trunc_interval (p : interval) : interval :=
  let '(s, e) := p in (trunc_minute s, option_map trunc_minute e).

(** Seconds and microseconds of both ends are zero. *)
Definition at_minute (p : interval) : Prop :=
  let '(s, e) := p in
  second s = 0 /\ microsecond s = 0 /\
  (forall x, e = Some x -> second x = 0 /\ microsecond x = 0).

Definition is_closed (p : interval) : bool :=
  match snd p with Some _ => true | None => false end.

(** At most one interval is open, and only the last one may be: every
    interval but the last is closed. *)
Definition open_only_last (l : list interval) : bool := forallb is_closed (removelast l).

Definition end_or (now : datetime) (e : option datetime) : datetime :=
  match e with Some x => x | None => now end.

(** The claim's reading of an interval: the whole seconds between its end
    (or [now]) and its start. *)
Definition whole_seconds (now : datetime) (p : interval) : Z :=
  let '(s, e) := p in sub_us (end_or now e) s / 1000000.

Definition claimed_seconds (now : datetime) (l : list interval) : Z :=
  fold_right Z.add 0 (map (whole_seconds now) l).

(** Both ends are datetimes, the end (or [now]) falls on the start's day and
    is not before the start. *)
Definition interval_fine (now : datetime) (p : interval) : Prop :=
  let '(s, e) := p in
  valid_dt s = true /\ valid_dt (end_or now e) = true
  /\ date_of (end_or now e) = date_of s /\ 0 <= sub_us (end_or now e) s.

Definition crosses_day (now : datetime) (p : interval) : Prop :=
  let '(s, e) := p in date_of (end_or now e) <> date_of s.

Definition same_day (now : datetime) (p : interval) : Prop :=
  let '(s, e) := p in date_of (end_or now e) = date_of s.

Definition sample_uuid : string := "5f0c2a8e-93d1-4b6a-a1c4-7e2b9d30f6aa".

(** A record as the file holds it per the spec: open end written "none". *)
Definition c5_record : SerTask :=
  mkSer sample_uuid "Write report" "RUNNING" [("2024-07-03T09:00", "none")] [].

Definition c5_good : SerTask :=
  mkSer sample_uuid "Write report" "PAUSED"
        [("2024-07-03T09:00", "2024-07-03T10:30"); ("2024-07-03T11:05", "None")]
        ["draft sent"].

(** A task whose first interval was captured live, at 09:00:42.5. *)
Definition c9_task : Task :=
  mkTask (UUIDObj sample_uuid) "Write report" "PAUSED"
    [(mkdt 2024 7 3 9 0 42 500000, Some (mkdt 2024 7 3 10 30 7 0))] [].

Definition sample_now : datetime := mkdt 2024 7 3 14 0 0 0.

Definition c2_task : Task :=
  mkTask (UUIDObj sample_uuid) "Write report" "RUNNING"
    [(mkdt 2024 7 3 9 0 0 0, Some (mkdt 2024 7 3 10 0 0 0));
     (mkdt 2024 7 3 11 0 0 0, None)] [].

Definition c3_task : Task :=
  mkTask (UUIDObj sample_uuid) "Write report" "COMPLETED"
    [(mkdt 2024 7 3 9 0 0 0, Some (mkdt 2024 7 3 10 0 0 0))] [].

Definition c1_task : Task :=
  mkTask (UUIDObj sample_uuid) "Write report" "RUNNING"
    [(mkdt 2024 7 3 9 0 0 0, Some (mkdt 2024 7 3 10 30 15 500000));
     (mkdt 2024 7 3 11 0 0 0, None)] [].

(** Started on the previous evening and still running. *)
Definition c1_overnight : Task :=
  mkTask (UUIDObj sample_uuid) "Write report" "RUNNING"
    [(mkdt 2024 7 2 22 0 0 0, None)] [].

Definition c6_task : Task :=
  mkTask (UUIDObj sample_uuid) "Write report" "PAUSED"
    [(mkdt 2024 7 3 10 0 0 0, Some (mkdt 2024 7 3 9 0 0 0))] [].

Definition c6_cross : Task :=
  mkTask (UUIDObj sample_uuid) "Write report" "PAUSED"
    [(mkdt 2024 7 2 23 0 0 0, Some (mkdt 2024 7 3 1 0 0 0))] [].

Definition task_a : Task :=
  mkTask (UuidStr "5f0c2a8e-93d1-4b6a-a1c4-7e2b9d30f6aa") "Write report" "RUNNING"
    [(mkdt 2024 7 3 9 0 0 0, None)] [].

Definition task_b : Task :=
  mkTask (UuidStr "5f1d7b02-0c44-4e0f-8d51-3a6c2e9b1c07") "Review notes" "COMPLETED"
    [(mkdt 2024 7 3 8 0 0 0, Some (mkdt 2024 7 3 8 45 0 0))] [].

Definition c7_doc : Doc :=
  mkDoc (mkdate 2024 7 3) [("version", "0.0.0")] [("2024-07-03", [task_a; task_b])] ([], []).

Definition c10_doc : Doc :=
  mkDoc (mkdate 2024 7 4) [("version", "0.0.0")] [("2024-07-03", [task_a; task_b])] ([], []).

Definition c8_now : datetime := mkdt 2024 7 4 9 0 0 0.

(** The two per-interval checks of [Task.minutes]: the end (or [now]) is on
    the start's day, and the [timedelta.seconds] added. *)
Definition iv_same_day (now : datetime) (p : interval) : bool :=
  date_eqb (date_of (end_or now (snd p))) (date_of (fst p)).

Definition iv_seconds (now : datetime) (p : interval) : Z :=
  td_seconds (sub_us (end_or now (snd p)) (fst p)).

Definition incomplete (t : Task) : bool := negb (is_status (status t) COMPLETED).

(** The list a date had before [add_task]: [setdefault] starts it empty. *)
Definition old_tasks (key : string) (d : Doc) : list Task :=
  match assoc key (tasks_data d) with Some ts => ts | None => [] end.

(** The task [add_task] creates. *)
Definition added_task (u desc : string) : Task := mkTask (UUIDObj u) desc "CREATED" [] [].

(** The task a reload of its serialised form gives back. *)
Definition reloaded_task (t : Task) : Task :=
  mkTask (UuidStr (uuid_str (uuid t))) (description t) (status t)
         (map trunc_interval (times t)) (notes t).

Definition all_chars (f : ascii -> bool) (s : string) : bool :=
  forallb f (list_ascii_of_string s).

Definition no_space (s : string) : bool := all_chars (fun c => negb (is_space c)) s.

(** The line [report_daily] prints for a task in the given format. *)
Definition report_line (float_str : Q -> string) (now : datetime) (fmt : string)
  (t : Task) : string :=
  match (if String.eqb fmt "email" then terminal_report float_str now t
         else terminal_report_with_uuid float_str now t) with
  | Ok s => s
  | Raise _ => ""
  end.



Definition task_c : Task :=
  mkTask (UUIDObj "0b9e61d4-2f7a-4c38-9e15-6d2a8f4c7b10") "Plan sprint" "CREATED" [] [].

Definition task_p : Task :=
  mkTask (UUIDObj sample_uuid) "Write report" "PAUSED"
    [(mkdt 2024 7 3 9 0 0 0, Some (mkdt 2024 7 3 10 0 0 0));
     (mkdt 2024 7 3 11 0 0 0, Some (mkdt 2024 7 3 11 45 0 0))] [].

Definition task_r0 : Task :=
  mkTask (UUIDObj sample_uuid) "Write report" "RUNNING" [] [].



Definition sample_float_str (q : Q) : string := "0.0".

Definition sample_total_line (q : Q) : string := "Total time: 0.0 Hrs 0.0 minutes".

Definition sample_json (l : list SerTask) : string := "[]".

Definition cross_doc : Doc :=
  mkDoc (mkdate 2024 7 3) [("version", "0.0.0")] [("2024-07-03", [task_b; c6_cross])] ([], []).

(** * Proofs *)

(** ** Parsing what [strftime] prints *)

(** Case analysis of an integer in a small literal range. *)
Ltac zenum n :=
  match goal with
  | H : ?lo <= n < ?hi |- _ =>
      tryif (assert (hi <= lo) by (clear; lia)) then (exfalso; clear - H; lia) else
      let Hne := fresh "Hne" in
      destruct (Z.eq_dec n lo) as [->|Hne];
      [ clear H
      | let lo' := eval compute in (lo + 1) in
        assert (lo' <= n < hi) by (clear - H Hne; lia); clear H Hne; zenum n ]
  | H : ?lo <= n <= ?hi |- _ =>
      assert (lo <= n < hi + 1) by (clear - H; lia); clear H; zenum n
  end.

Lemma append_empty_r (s : string) : (s ++ "")%string = s.
Proof. induction s as [|c s IH]; simpl; [reflexivity | now rewrite IH]. Qed.

Lemma digit_char_ok (k : Z) :
  0 <= k < 10 -> anyd (digit_char k) = true /\ dval (digit_char k) = k.
Proof. intros H. zenum k; split; reflexivity. Qed.

Lemma p_Y_pad4 {R} (n : Z) (s : string) (k : Z -> string -> option R) :
  0 <= n < 10000 -> p_Y (pad4 n ++ s)%string k = k n s.
Proof.
  intros H. unfold pad4. cbn [String.append]. unfold p_Y.
  destruct (digit_char_ok (n / 1000)) as [A1 B1]; [Z.div_mod_to_equations; lia|].
  destruct (digit_char_ok ((n / 100) mod 10)) as [A2 B2]; [Z.div_mod_to_equations; lia|].
  destruct (digit_char_ok ((n / 10) mod 10)) as [A3 B3]; [Z.div_mod_to_equations; lia|].
  destruct (digit_char_ok (n mod 10)) as [A4 B4]; [Z.div_mod_to_equations; lia|].
  rewrite A1, A2, A3, A4, B1, B2, B3, B4. cbn [andb].
  f_equal. Z.div_mod_to_equations; lia.
Qed.

(** Each two-digit field is read back by the first alternative that
    matches it; the continuation then succeeds, so no backtracking. *)
Ltac field_cases n Hk := zenum n; cbv; rewrite Hk; reflexivity.

Lemma p_m_pad2 {R} (m : Z) (s : string) (k : Z -> string -> option R) (r : R) :
  1 <= m <= 12 -> k m s = Some r -> p_m (pad2 m ++ s)%string k = Some r.
Proof. intros H Hk. field_cases m Hk. Qed.

Lemma p_d_pad2 {R} (d : Z) (s : string) (k : Z -> string -> option R) (r : R) :
  1 <= d <= 31 -> k d s = Some r -> p_d (pad2 d ++ s)%string k = Some r.
Proof. intros H Hk. field_cases d Hk. Qed.

Lemma p_H_pad2 {R} (h : Z) (s : string) (k : Z -> string -> option R) (r : R) :
  0 <= h < 24 -> k h s = Some r -> p_H (pad2 h ++ s)%string k = Some r.
Proof. intros H Hk. field_cases h Hk. Qed.

Lemma p_M_pad2 {R} (mi : Z) (s : string) (k : Z -> string -> option R) (r : R) :
  0 <= mi < 60 -> k mi s = Some r -> p_M (pad2 mi ++ s)%string k = Some r.
Proof. intros H Hk. field_cases mi Hk. Qed.

Lemma lit_self {R} (c : ascii) (s : string) (k : string -> option R) :
  lit c (String c s) k = k s.
Proof. unfold lit. now rewrite Ascii.eqb_refl. Qed.

Lemma days_in_month_le (y m : Z) : days_in_month y m <= 31.
Proof. unfold days_in_month. repeat destruct (_ =? _); destruct (is_leap y); simpl; lia. Qed.

Lemma re_match_strftime (d : datetime) :
  ts_ok d = true ->
  re_match (strftime d) = Some (year d, month d, day d, hour d, minute d, "").
Proof.
  intros H. unfold ts_ok, valid_dt, valid_ymd in H.
  repeat rewrite andb_true_iff in H. repeat rewrite Z.leb_le in H. repeat rewrite Z.ltb_lt in H.
  pose proof (days_in_month_le (year d) (month d)).
  unfold re_match, strftime.
  rewrite p_Y_pad4 by lia. cbv beta. rewrite lit_self.
  apply p_m_pad2; [lia|]. cbv beta. rewrite lit_self.
  apply p_d_pad2; [lia|]. cbv beta. rewrite lit_self.
  apply p_H_pad2; [lia|]. cbv beta. rewrite lit_self.
  rewrite <- (append_empty_r (pad2 (minute d))).
  apply p_M_pad2; [lia|]. reflexivity.
Qed.

Lemma strptime_strftime (d : datetime) :
  ts_ok d = true -> strptime (strftime d) = Ok (trunc_minute d).
Proof.
  intros H. unfold strptime. rewrite re_match_strftime by exact H.
  simpl. unfold ts_ok, valid_dt in H.
  destruct (valid_ymd (year d) (month d) (day d)); [reflexivity | discriminate].
Qed.

Lemma strftime_trunc (d : datetime) : strftime (trunc_minute d) = strftime d.
Proof. reflexivity. Qed.

Lemma lower_length (s : string) : String.length (lower s) = String.length s.
Proof. induction s as [|c s IH]; simpl; [reflexivity | now rewrite IH]. Qed.

Lemma strftime_not_none (d : datetime) : String.eqb (lower (strftime d)) "none" = false.
Proof.
  destruct (String.eqb_spec (lower (strftime d)) "none") as [E|E]; [|reflexivity].
  apply (f_equal String.length) in E. rewrite lower_length in E. discriminate E.
Qed.

Lemma none_sentinel : String.eqb (lower "None") "none" = true.
Proof. reflexivity. Qed.

Lemma deser_times_wf (l : list (string * string)) :
  Forall (fun p => ts_string_ok (fst p) /\ (snd p = "None" \/ ts_string_ok (snd p))) l ->
  exists ts, deser_times l = Ok ts /\ map ser_interval ts = l.
Proof.
  induction 1 as [|[x y] l Hp _ [ts [IH1 IH2]]]; [exists []; split; reflexivity|].
  destruct Hp as [[dx [Hdx Ex]] Hy]. cbn [fst snd] in Ex, Hy. subst x.
  cbn [deser_times]. rewrite strptime_strftime by exact Hdx.
  destruct Hy as [-> | [dy [Hdy ->]]].
  - exists ((trunc_minute dx, None) :: ts). rewrite none_sentinel.
    rewrite IH1. split; [reflexivity|].
    cbn [map ser_interval ser_end]. now rewrite IH2, strftime_trunc.
  - rewrite strftime_not_none, strptime_strftime by exact Hdy. rewrite IH1.
    exists ((trunc_minute dx, Some (trunc_minute dy)) :: ts). split; [reflexivity|].
    cbn [map ser_interval ser_end]. now rewrite IH2, !strftime_trunc.
Qed.

Lemma deser_ser_times (l : list interval) :
  Forall interval_ok l -> deser_times (map ser_interval l) = Ok (map trunc_interval l).
Proof.
  induction 1 as [|[s e] l [Hs He] _ IH]; [reflexivity|].
  cbn [map ser_interval deser_times]. rewrite strptime_strftime by exact Hs.
  destruct e as [x|]; cbn [ser_end].
  - rewrite strftime_not_none, strptime_strftime by (apply He; reflexivity).
    now rewrite IH.
  - rewrite none_sentinel. now rewrite IH.
Qed.

Lemma trunc_times_fixed (l : list interval) :
  map trunc_interval l = l -> Forall at_minute l.
Proof.
  induction l as [|[s e] l IH]; simpl; intros H; [constructor|].
  injection H as Hs He Hl. constructor; [|now apply IH].
  destruct s as [y mo dd h mi sec us]; cbn [trunc_minute] in Hs. injection Hs as Hsec Hus.
  cbn [at_minute second microsecond]. split; [lia|split; [lia|]].
  intros x Ex; subst e. destruct x as [y' mo' dd' h' mi' sec' us']; cbn in He.
  injection He as E1 E2. cbn. lia.
Qed.

(** ** The interval-list invariant *)

Lemma last_opt_app {A} (l : list A) (x : A) : last_opt (l ++ [x]) = Some x.
Proof.
  induction l as [|a l IH]; [reflexivity|].
  cbn [app]. rewrite <- IH. destruct l; reflexivity.
Qed.

Lemma last_opt_none {A} (l : list A) : last_opt l = None -> l = [].
Proof.
  induction l as [|a l IH]; [reflexivity|].
  destruct l as [|b l]; [discriminate|]. intros H. specialize (IH H). discriminate IH.
Qed.

Lemma last_opt_split {A} (l : list A) (x : A) : last_opt l = Some x -> l = removelast l ++ [x].
Proof.
  induction l as [|a l IH]; [discriminate|].
  destruct l as [|b l].
  - intros H. injection H as <-. reflexivity.
  - intros H. specialize (IH H). change (removelast (a :: b :: l)) with (a :: removelast (b :: l)).
    cbn [app]. f_equal. exact IH.
Qed.

(** Closing the list, or a list whose last interval is closed, is closed. *)
Lemma open_only_last_closed (l : list interval) :
  open_only_last l = true ->
  (forall p, last_opt l = Some p -> is_closed p = true) -> forallb is_closed l = true.
Proof.
  intros H Hl. destruct (last_opt l) as [p|] eqn:E.
  - rewrite (last_opt_split l p E), forallb_app. unfold open_only_last in H.
    rewrite H. cbn. rewrite (Hl p eq_refl). reflexivity.
  - rewrite (last_opt_none l E). reflexivity.
Qed.

Lemma open_only_last_open (l : list interval) :
  open_only_last l = true -> existsb (fun p => negb (is_closed p)) l = true ->
  exists s, last_opt l = Some (s, None).
Proof.
  intros H Hex. destruct (last_opt l) as [[s [e|]]|] eqn:E.
  - exfalso. rewrite (last_opt_split l _ E), existsb_app in Hex.
    unfold open_only_last in H. apply Bool.orb_true_iff in Hex as [Hex|Hex].
    + apply existsb_exists in Hex as [p [Hin Hp]]. rewrite forallb_forall in H.
      rewrite (H p Hin) in Hp. discriminate.
    + discriminate.
  - exists s. reflexivity.
  - rewrite (last_opt_none l E) in Hex. discriminate.
Qed.

Lemma open_only_last_snoc (l : list interval) (p : interval) :
  open_only_last (l ++ [p]) = forallb is_closed l.
Proof. unfold open_only_last. now rewrite removelast_last. Qed.

Lemma open_only_last_close (l : list interval) (s now : datetime) :
  open_only_last l = true -> open_only_last (removelast l ++ [(s, Some now)]) = true.
Proof. intros H. rewrite open_only_last_snoc. exact H. Qed.

(** ** Elapsed minutes *)

Lemma date_eqb_true (a b : date) : date_eqb a b = true <-> a = b.
Proof.
  destruct a, b. unfold date_eqb. cbn. rewrite !andb_true_iff, !Z.eqb_eq.
  split; [intros [[-> ->] ->]; reflexivity | intros E; injection E; auto].
Qed.

Lemma date_eqb_false (a b : date) : date_eqb a b = false <-> a <> b.
Proof. rewrite <- date_eqb_true. destruct (date_eqb a b); intuition discriminate. Qed.

Lemma valid_dt_bounds (d : datetime) :
  valid_dt d = true ->
  0 <= hour d < 24 /\ 0 <= minute d < 60 /\ 0 <= second d < 60
  /\ 0 <= microsecond d < 1000000.
Proof.
  unfold valid_dt. rewrite !andb_true_iff, !Z.leb_le, !Z.ltb_lt. intuition lia.
Qed.

(** On one day, [timedelta.seconds] of a non-negative difference is its
    whole number of seconds. *)
Lemma td_seconds_same_day (e s : datetime) :
  valid_dt e = true -> valid_dt s = true -> date_of e = date_of s -> 0 <= sub_us e s ->
  td_seconds (sub_us e s) = sub_us e s / 1000000.
Proof.
  intros He Hs Hd Hpos.
  apply valid_dt_bounds in He, Hs.
  assert (Ho : toordinal e = toordinal s).
  { destruct e, s. unfold date_of in Hd. cbn in Hd. injection Hd as -> -> ->. reflexivity. }
  unfold td_seconds. rewrite Z.mod_small; [reflexivity|].
  split; [exact Hpos|]. unfold sub_us in *. rewrite Ho. lia.
Qed.

Lemma minutes_loop_fine (now : datetime) (l : list interval) (acc : Z) :
  Forall (interval_fine now) l ->
  minutes_loop now acc l = Ok (acc + claimed_seconds now l).
Proof.
  intros H. revert acc. induction H as [|[s e] l [Hs [He [Hd Hpos]]] _ IH]; intros acc.
  - cbn. f_equal. lia.
  - cbn [minutes_loop]. fold (end_or now e).
    assert (Eb : date_eqb (date_of (end_or now e)) (date_of s) = true)
      by (apply date_eqb_true; exact Hd).
    rewrite Eb. cbn [negb]. rewrite IH, td_seconds_same_day by assumption.
    f_equal. unfold claimed_seconds. cbn [map fold_right whole_seconds]. lia.
Qed.

Lemma minutes_loop_cross (now : datetime) (l : list interval) (acc : Z) :
  Exists (crosses_day now) l ->
  minutes_loop now acc l
    = Raise (RuntimeError "We expect all end dates to happen in the same day").
Proof.
  intros H. revert acc. induction H as [[s e] l Hx|[s e] l _ IH]; intros acc;
    cbn [minutes_loop]; fold (end_or now e).
  - cbn [crosses_day] in Hx. apply date_eqb_false in Hx. now rewrite Hx.
  - destruct (date_eqb _ _); cbn [negb]; [apply IH | reflexivity].
Qed.

Lemma minutes_loop_same_day (now : datetime) (l : list interval) (acc : Z) :
  Forall (same_day now) l -> exists n, minutes_loop now acc l = Ok n.
Proof.
  intros H. revert acc. induction H as [|[s e] l Hd _ IH]; intros acc.
  - eexists; reflexivity.
  - cbn [minutes_loop]. fold (end_or now e). cbn [same_day] in Hd.
    apply date_eqb_true in Hd. rewrite Hd. cbn [negb]. apply IH.
Qed.

(** ** Task lookup *)

Lemma select_task_one (frag : string) (ts : list Task) (t : Task) :
  select_task frag ts = Ok t <-> filter (matches frag) ts = [t].
Proof.
  unfold select_task. destruct (filter (matches frag) ts) as [|a [|b l]].
  - split; discriminate.
  - split; intros E; injection E as ->; reflexivity.
  - split; discriminate.
Qed.

(** * Claims *)

(** ** Serialisation round trips *)

(** C5 (counterexample): the record above does not survive
    [serialize (deserialize x)]: the open end comes back as "None". *)
Lemma C5_counterexample :
  exists t, deserialize c5_record = Ok t /\ serialize t <> c5_record.
Proof.
  eexists. split; [reflexivity|].
  vm_compute. intros H. injection H. intros. discriminate.
Qed.

(** C5 (amended): for every serialised task whose timestamps are
    [DATE_FORMAT] strings of representable datetimes and whose open ends are
    the sentinel "None" that [serialize] writes, [deserialize] succeeds and
    [serialize] gives the record back unchanged. *)
Theorem C5_serialize_deserialize (x : SerTask) :
  ser_wf x -> exists t, deserialize x = Ok t /\ serialize t = x.
Proof.
  intros Hwf. destruct (deser_times_wf _ Hwf) as [ts [E1 E2]].
  exists (mkTask (UuidStr (s_uuid x)) (s_description x) (s_status x) ts (s_notes x)).
  unfold deserialize. rewrite E1. split; [reflexivity|].
  destruct x as [u dsc st tm nt]. unfold serialize. cbn [uuid description status times notes uuid_str].
  cbn [s_times] in E2. f_equal. exact E2.
Qed.

Lemma C5_witness : ser_wf c5_good /\
  exists t, deserialize c5_good = Ok t /\ serialize t = c5_good.
Proof.
  assert (W : ser_wf c5_good).
  { unfold ser_wf. cbn [s_times c5_good].
    constructor; cbn [fst snd].
    { split; [exists (mkdt 2024 7 3 9 0 0 0); split; reflexivity|].
      right; exists (mkdt 2024 7 3 10 30 0 0); split; reflexivity. }
    constructor; cbn [fst snd]; [|constructor].
    split; [exists (mkdt 2024 7 3 11 5 0 0); split; reflexivity | left; reflexivity]. }
  split; [exact W | apply C5_serialize_deserialize; exact W].
Defined.

(** C9: [serialize] drops seconds and microseconds, so
    [deserialize (serialize t)] has every interval timestamp truncated to the
    minute (and the uuid as its string); it gives back [t] only if every
    timestamp of [t] already has zero seconds and microseconds. *)
Theorem C9_deserialize_serialize (t : Task) :
  Forall interval_ok (times t) ->
  deserialize (serialize t)
    = Ok (mkTask (UuidStr (uuid_str (uuid t))) (description t) (status t)
                 (map trunc_interval (times t)) (notes t))
  /\ (deserialize (serialize t) = Ok t -> Forall at_minute (times t)).
Proof.
  intros Hok.
  assert (E : deserialize (serialize t)
    = Ok (mkTask (UuidStr (uuid_str (uuid t))) (description t) (status t)
                 (map trunc_interval (times t)) (notes t))).
  { unfold deserialize, serialize. cbn [s_times s_uuid s_description s_status s_notes].
    change (map (fun '(x, y) => (strftime x, ser_end y)) (times t))
      with (map ser_interval (times t)).
    now rewrite deser_ser_times. }
  split; [exact E|].
  rewrite E. intros H. apply trunc_times_fixed.
  apply (f_equal (fun r => match r with Ok t' => times t' | Raise _ => [] end)) in H.
  exact H.
Qed.

Lemma C9_witness : Forall interval_ok (times c9_task) /\
  deserialize (serialize c9_task)
    = Ok (mkTask (UuidStr sample_uuid) "Write report" "PAUSED"
           [(mkdt 2024 7 3 9 0 0 0, Some (mkdt 2024 7 3 10 30 0 0))] []).
Proof.
  assert (W : Forall interval_ok (times c9_task)).
  { constructor; [|constructor]. split; [reflexivity|].
    intros x Ex. injection Ex as <-. reflexivity. }
  split; [exact W | exact (proj1 (C9_deserialize_serialize c9_task W))].
Defined.

(** ** The task lifecycle *)

Lemma times_set_status (st : TaskStates) (t : Task) : times (set_status st t) = times t.
Proof. reflexivity. Qed.

Lemma start_keeps_invariant (now : datetime) (t : Task) :
  open_only_last (times t) = true ->
  open_only_last (times (fst (fst (start now t)))) = true.
Proof.
  intros H. unfold start. cbv zeta.
  destruct (_ || _); cbn [times set_status];
    destruct (last_opt (times t)) as [[s [e|]]|] eqn:E; cbn [fst times set_times set_status];
    try exact H; rewrite open_only_last_snoc.
  all: try (rewrite (last_opt_none _ E); reflexivity).
  all: apply open_only_last_closed; [exact H|].
  all: rewrite E; intros p Hp; injection Hp as <-; reflexivity.
Qed.

Lemma pause_keeps_invariant (now : datetime) (t : Task) :
  open_only_last (times t) = true ->
  open_only_last (times (fst (fst (pause now t)))) = true.
Proof.
  intros H. unfold pause. destruct (negb _); [exact H|].
  rewrite times_set_status.
  destruct (last_opt (times t)) as [[s [e|]]|]; cbn [fst times set_times set_status];
    try exact H.
  apply open_only_last_close. exact H.
Qed.

Lemma complete_keeps_invariant (now : datetime) (t : Task) :
  open_only_last (times t) = true ->
  open_only_last (times (fst (fst (complete now t)))) = true.
Proof.
  intros H. unfold complete. destruct (negb _); [exact H|].
  rewrite times_set_status.
  destruct (last_opt (times t)) as [[s [e|]]|]; cbn [fst times set_times set_status];
    try exact H.
  apply open_only_last_close. exact H.
Qed.

(** C2: every interval but the last is closed, before and after any action
    ([start], [pause], [complete], [note]); with that invariant, [start] on a
    task that has an open interval raises (the code raises [TypeError], the
    spec's InvalidStateError) instead of opening a second one. *)
Theorem C2_open_interval_invariant (a : Actions) (note : option string)
  (now : datetime) (t : Task) :
  open_only_last (times t) = true ->
  open_only_last (times (fst (fst (run_action a note now t)))) = true
  /\ (existsb (fun p => negb (is_closed p)) (times t) = true ->
      exists msg, snd (start now t) = Raise (TypeError msg)).
Proof.
  intros H. split.
  - destruct a; cbn [run_action].
    + now apply start_keeps_invariant.
    + now apply pause_keeps_invariant.
    + now apply complete_keeps_invariant.
    + destruct note as [[|c n]|]; exact H.
  - intros Hex. destruct (open_only_last_open _ H Hex) as [s E].
    unfold start.
    destruct (is_status (status t) CREATED || is_status (status t) PAUSED);
      cbn [times set_status]; rewrite E; eexists; reflexivity.
Qed.

Lemma C2_witness : open_only_last (times c2_task) = true /\
  exists msg, snd (start sample_now c2_task) = Raise (TypeError msg).
Proof.
  split; [reflexivity|].
  exact (proj2 (C2_open_interval_invariant START None sample_now c2_task eq_refl) eq_refl).
Defined.

(** C3 (code bug): [start] on a completed task leaves the status
    "COMPLETED" but still appends an open interval; [pause] and [complete]
    then refuse to close it because the task is not running. *)
Theorem C3_start_on_completed :
  start sample_now c3_task
    = (mkTask (UUIDObj sample_uuid) "Write report" "COMPLETED"
         [(mkdt 2024 7 3 9 0 0 0, Some (mkdt 2024 7 3 10 0 0 0)); (sample_now, None)] [],
       [], Ok tt)
  /\ pause sample_now (fst (fst (start sample_now c3_task)))
     = (fst (fst (start sample_now c3_task)), ["Task is not running"], Ok tt)
  /\ complete sample_now (fst (fst (start sample_now c3_task)))
     = (fst (fst (start sample_now c3_task)), ["Task is not running"], Ok tt).
Proof. split; [|split]; reflexivity. Qed.

(** C4: outside "RUNNING", [pause] and [complete] print the warning and
    change nothing; in "RUNNING" with an open last interval they set the
    status and close exactly that interval at [now], the earlier intervals
    unchanged; in "RUNNING" with a closed last interval they raise
    ([TypeError], the spec's InvalidStateError). *)
Theorem C4_pause_complete (now : datetime) (t : Task) :
  (is_status (status t) RUNNING = false ->
     pause now t = (t, ["Task is not running"], Ok tt)
     /\ complete now t = (t, ["Task is not running"], Ok tt))
  /\ (forall pre s, is_status (status t) RUNNING = true -> times t = pre ++ [(s, None)] ->
       pause now t
         = (mkTask (uuid t) (description t) "PAUSED" (pre ++ [(s, Some now)]) (notes t),
            [], Ok tt)
       /\ complete now t
         = (mkTask (uuid t) (description t) "COMPLETED" (pre ++ [(s, Some now)]) (notes t),
            [], Ok tt))
  /\ (forall pre s e, is_status (status t) RUNNING = true -> times t = pre ++ [(s, Some e)] ->
       (exists msg, snd (pause now t) = Raise (TypeError msg))
       /\ (exists msg, snd (complete now t) = Raise (TypeError msg))).
Proof.
  split; [|split].
  - intros H. unfold pause, complete. rewrite H. split; reflexivity.
  - intros pre s H E. unfold pause, complete. rewrite H. cbn [negb].
    rewrite !times_set_status, E, last_opt_app, removelast_last. split; reflexivity.
  - intros pre s e H E. unfold pause, complete. rewrite H. cbn [negb].
    rewrite !times_set_status, E, last_opt_app. split; eexists; reflexivity.
Qed.

Lemma C4_witness :
  (pause sample_now c2_task
     = (mkTask (UUIDObj sample_uuid) "Write report" "PAUSED"
          [(mkdt 2024 7 3 9 0 0 0, Some (mkdt 2024 7 3 10 0 0 0));
           (mkdt 2024 7 3 11 0 0 0, Some sample_now)] [], [], Ok tt))
  /\ pause sample_now c3_task = (c3_task, ["Task is not running"], Ok tt).
Proof.
  split.
  - exact (proj1 (proj1 (proj2 (C4_pause_complete sample_now c2_task))
             [(mkdt 2024 7 3 9 0 0 0, Some (mkdt 2024 7 3 10 0 0 0))]
             (mkdt 2024 7 3 11 0 0 0) eq_refl eq_refl)).
  - exact (proj1 (proj1 (C4_pause_complete sample_now c3_task) eq_refl)).
Defined.

(** ** Elapsed minutes *)

(** C1 (amended): [minutes] is computed without touching the task (it is a
    function of the task and the clock) and closes an open interval at
    [now]. When every interval ends (or [now] falls) on its start's day and
    not before its start, it returns the sum of the whole-second differences
    divided by 60; when some interval ends on another day it raises
    [RuntimeError] instead. *)
Theorem C1_minutes (now : datetime) (t : Task) :
  (Forall (interval_fine now) (times t) ->
     minutes now t = Ok (inject_Z (claimed_seconds now (times t)) / inject_Z 60)%Q)
  /\ (Exists (crosses_day now) (times t) ->
     exists msg, minutes now t = Raise (RuntimeError msg)).
Proof.
  split.
  - intros H. unfold minutes. rewrite (minutes_loop_fine now (times t) 0 H). reflexivity.
  - intros H. unfold minutes. rewrite (minutes_loop_cross now (times t) 0 H).
    eexists; reflexivity.
Qed.

Lemma C1_witness : Forall (interval_fine sample_now) (times c1_task) /\
  minutes sample_now c1_task = Ok (inject_Z (5415 + 10800) / inject_Z 60)%Q.
Proof.
  assert (W : Forall (interval_fine sample_now) (times c1_task)).
  { constructor; [|constructor; [|constructor]];
      cbn [interval_fine end_or]; (split; [reflexivity|split; [reflexivity|split; [reflexivity|]]]);
      vm_compute; discriminate. }
  split; [exact W|].
  exact (proj1 (C1_minutes sample_now c1_task) W).
Defined.

(** C1 (counterexample): a task left running since the previous evening
    has no elapsed time: [minutes] raises instead of returning the sum. *)
Lemma C1_counterexample :
  minutes sample_now c1_overnight
    = Raise (RuntimeError "We expect all end dates to happen in the same day").
Proof. reflexivity. Qed.

(** C6 (counterexample): an interval ending one hour before it starts, on
    the same day, raises nothing: it is counted as 82800 seconds (23 hours). *)
Lemma C6_counterexample :
  minutes sample_now c6_task = Ok (inject_Z 82800 / inject_Z 60)%Q.
Proof. reflexivity. Qed.

(** C6 (amended): [minutes] raises [RuntimeError] exactly when some
    interval's end (or [now]) falls on another calendar day than its start;
    when every interval ends on its start's day it returns a value, whatever
    the order of end and start. *)
Theorem C6_minutes_failure (now : datetime) (t : Task) :
  (Exists (crosses_day now) (times t) ->
     exists msg, minutes now t = Raise (RuntimeError msg))
  /\ (Forall (same_day now) (times t) -> exists q, minutes now t = Ok q).
Proof.
  split.
  - intros H. unfold minutes. rewrite (minutes_loop_cross now (times t) 0 H).
    eexists; reflexivity.
  - intros H. unfold minutes. destruct (minutes_loop_same_day now (times t) 0 H) as [n E].
    rewrite E. eexists; reflexivity.
Qed.

Lemma C6_witness :
  (exists msg, minutes sample_now c6_cross = Raise (RuntimeError msg))
  /\ (exists q, minutes sample_now c6_task = Ok q).
Proof.
  split.
  - apply (proj1 (C6_minutes_failure sample_now c6_cross)).
    constructor. cbn [crosses_day end_or]. discriminate.
  - apply (proj2 (C6_minutes_failure sample_now c6_task)).
    constructor; [reflexivity | constructor].
Defined.

(** ** Task lookup in [update_task] *)

(** C7: within the working date's task list, the selected task is the one
    whose uuid contains the fragment, when it is the only such task; no
    match raises the "No tasks found" [LookupError] (the spec's
    NotFoundError), two or more raise the "More than 1 task found"
    [LookupError] (the spec's AmbiguousError), and in both cases the
    document is left as it was, nothing printed or written. *)
Theorem C7_find_task (now : datetime) (frag : string) (a : Actions)
  (note : option string) (d : Doc) (ts : list Task) :
  assoc (isoformat (working_date d)) (tasks_data d) = Some ts ->
  (forall t, select_task frag ts = Ok t <-> filter (matches frag) ts = [t])
  /\ (filter (matches frag) ts = [] ->
      update_task now frag a note d = (d, [], Raise (LookupError (notfound_msg frag))))
  /\ ((2 <= length (filter (matches frag) ts))%nat ->
      update_task now frag a note d = (d, [], Raise (LookupError (ambiguous_msg frag)))).
Proof.
  intros Hk. split; [|split].
  - intros t. apply select_task_one.
  - intros H. unfold update_task. rewrite Hk. unfold select_task. rewrite H. reflexivity.
  - intros H. unfold update_task. rewrite Hk. unfold select_task.
    destruct (filter (matches frag) ts) as [|x [|y l]]; cbn [length] in H; try lia.
    reflexivity.
Qed.

Lemma C7_witness :
  assoc (isoformat (working_date c7_doc)) (tasks_data c7_doc) = Some [task_a; task_b]
  /\ select_task "5f0c" [task_a; task_b] = Ok task_a
  /\ update_task sample_now "5f" PAUSE None c7_doc
     = (c7_doc, [], Raise (LookupError (ambiguous_msg "5f")))
  /\ update_task sample_now "zz" PAUSE None c7_doc
     = (c7_doc, [], Raise (LookupError (notfound_msg "zz"))).
Proof.
  pose proof (C7_find_task sample_now "5f" PAUSE None c7_doc _ eq_refl) as [_ [_ Amb]].
  pose proof (C7_find_task sample_now "zz" PAUSE None c7_doc _ eq_refl) as [_ [Nf _]].
  pose proof (C7_find_task sample_now "5f0c" PAUSE None c7_doc _ eq_refl) as [One _].
  split; [reflexivity|split; [|split]].
  - apply One. reflexivity.
  - apply Amb. vm_compute. lia.
  - apply Nf. reflexivity.
Defined.

(** C10: when the working date has no task list, [update_task] raises
    [KeyError] on the date key before looking at the fragment; when the list
    exists and nothing matches, it raises the "No tasks found"
    [LookupError]. The document is unchanged either way. *)
Theorem C10_missing_date (now : datetime) (frag : string) (a : Actions)
  (note : option string) (d : Doc) :
  (forall ts, assoc (isoformat (working_date d)) (tasks_data d) = Some ts ->
     filter (matches frag) ts = []) ->
  update_task now frag a note d
    = (d, [], match assoc (isoformat (working_date d)) (tasks_data d) with
              | None => Raise (KeyError (isoformat (working_date d)))
              | Some _ => Raise (LookupError (notfound_msg frag))
              end).
Proof.
  intros H. unfold update_task.
  destruct (assoc (isoformat (working_date d)) (tasks_data d)) as [ts|] eqn:E; [|reflexivity].
  unfold select_task. rewrite (H ts eq_refl). reflexivity.
Qed.

Lemma C10_witness :
  update_task sample_now "5f0c" START None c10_doc
    = (c10_doc, [], Raise (KeyError "2024-07-04")).
Proof.
  apply (C10_missing_date sample_now "5f0c" START None c10_doc).
  intros ts E. discriminate E.
Defined.

(** ** The error scan *)

(** C8 (code bug): on 2024-07-04, with a running and a completed task left
    on 2024-07-03, the scan selects exactly the running task, but printing
    it calls the missing [Task.report]: the command prints the date header
    and fails with [AttributeError] instead of reporting the task. *)
Theorem C8_errors_report :
  collect_errors (isoformat (date_of c8_now)) (tasks_data c10_doc)
    = [("2024-07-03", [task_a])]
  /\ errors c8_now c10_doc
    = (c10_doc, [date_header "2024-07-03"],
       Raise (AttributeError "'Task' object has no attribute 'report'")).
Proof. split; reflexivity. Qed.

(** * Further properties of the code *)

(** ** Elapsed minutes *)

Lemma minutes_loop_eq (now : datetime) (acc : Z) (l : list interval) :
  minutes_loop now acc l
  = if forallb (iv_same_day now) l
    then Ok (acc + fold_right Z.add 0 (map (iv_seconds now) l))
    else Raise (RuntimeError "We expect all end dates to happen in the same day").
Proof.
  revert acc. induction l as [|[s e] l IH]; intros acc.
  - cbn. f_equal. lia.
  - cbn [minutes_loop]. fold (end_or now e). cbn [forallb map fold_right].
    unfold iv_same_day at 1. cbn [fst snd].
    destruct (date_eqb (date_of (end_or now e)) (date_of s)); cbn [negb andb].
    + rewrite IH. destruct (forallb (iv_same_day now) l); [|reflexivity].
      f_equal. unfold iv_seconds. cbn [fst snd]. lia.
    + reflexivity.
Qed.

Lemma forallb_perm {A : Type} (f : A -> bool) (l l' : list A) :
  Permutation l l' -> forallb f l = forallb f l'.
Proof.
  induction 1; cbn [forallb]; try congruence.
  destruct (f x), (f y); reflexivity.
Qed.

Lemma sum_perm (l l' : list Z) :
  Permutation l l' -> fold_right Z.add 0 l = fold_right Z.add 0 l'.
Proof. induction 1; cbn [fold_right]; lia. Qed.

Lemma minutes_raises_runtime (now : datetime) (t : Task) (e : exn) :
  minutes now t = Raise e -> exists msg, e = RuntimeError msg.
Proof.
  unfold minutes. rewrite minutes_loop_eq.
  destruct (forallb (iv_same_day now) (times t)); intros H; [discriminate H|].
  injection H as <-. eexists; reflexivity.
Qed.

(** X1: [Task.minutes] does not depend on the order of the intervals: any
    reordering of [times] gives the same minutes, or the same exception. *)
Theorem minutes_order_independent (now : datetime) (t : Task) (l : list interval) :
  Permutation (times t) l -> minutes now (set_times l t) = minutes now t.
Proof.
  intros P. unfold minutes. cbn [times set_times]. rewrite !minutes_loop_eq.
  rewrite (forallb_perm (iv_same_day now) _ _ P).
  rewrite (sum_perm _ _ (Permutation_map (iv_seconds now) P)). reflexivity.
Qed.

Lemma minutes_order_independent_witness :
  Permutation (times task_p) (rev (times task_p))
  /\ minutes sample_now (set_times (rev (times task_p)) task_p) = minutes sample_now task_p.
Proof.
  assert (P : Permutation (times task_p) (rev (times task_p))) by apply Permutation_rev.
  split; [exact P | exact (minutes_order_independent sample_now task_p _ P)].
Defined.

(** ** The task lifecycle *)

Lemma start_closed (now : datetime) (t : Task) :
  forallb is_closed (times t) = true ->
  start now t
  = (mkTask (uuid t) (description t)
       (if is_status (status t) CREATED || is_status (status t) PAUSED
        then "RUNNING" else status t)
       (times t ++ [(now, None)]) (notes t), [], Ok tt).
Proof.
  intros H. unfold start.
  assert (L : forall s, last_opt (times t) <> Some (s, None)).
  { intros s L. rewrite (last_opt_split _ _ L), forallb_app in H. cbn in H.
    rewrite andb_false_r in H. discriminate H. }
  destruct (is_status (status t) CREATED || is_status (status t) PAUSED);
    cbn [times set_status];
    destruct (last_opt (times t)) as [[s [e|]]|];
    try (exfalso; now apply (L s)); destruct t; reflexivity.
Qed.

Lemma pause_open_last (now s : datetime) (t : Task) (l : list interval) :
  is_status (status t) RUNNING = true -> times t = l ++ [(s, None)] ->
  pause now t = (mkTask (uuid t) (description t) "PAUSED" (l ++ [(s, Some now)]) (notes t),
                 [], Ok tt).
Proof.
  intros H Ht. unfold pause. rewrite H. cbn [negb].
  cbn [times set_status]. rewrite Ht, last_opt_app, removelast_last. reflexivity.
Qed.

Lemma complete_open_last (now s : datetime) (t : Task) (l : list interval) :
  is_status (status t) RUNNING = true -> times t = l ++ [(s, None)] ->
  complete now t
  = (mkTask (uuid t) (description t) "COMPLETED" (l ++ [(s, Some now)]) (notes t),
     [], Ok tt).
Proof.
  intros H Ht. unfold complete. rewrite H. cbn [negb].
  cbn [times set_status]. rewrite Ht, last_opt_app, removelast_last. reflexivity.
Qed.

(** X2: from a created or paused task with no open interval, start, pause,
    start, complete (at [n1], [n2], [n3], [n4]) succeed silently, add the
    two closed intervals [(n1, n2)] and [(n3, n4)] after the old ones and
    leave the task completed. *)
Theorem lifecycle_start_pause_start_complete (n1 n2 n3 n4 : datetime) (t : Task) :
  (is_status (status t) CREATED || is_status (status t) PAUSED) = true ->
  forallb is_closed (times t) = true ->
  seqM (start n1) (seqM (pause n2) (seqM (start n3) (complete n4))) t
  = (mkTask (uuid t) (description t) "COMPLETED"
            (times t ++ [(n1, Some n2); (n3, Some n4)]) (notes t), [], Ok tt).
Proof.
  intros Hs Hc. unfold seqM at 1. rewrite (start_closed n1 t Hc), Hs.
  unfold seqM at 1.
  rewrite (pause_open_last n2 n1 _ (times t)) by reflexivity.
  unfold seqM at 1.
  rewrite start_closed by (cbn [times]; rewrite forallb_app, Hc; reflexivity).
  cbn [uuid description status times notes].
  rewrite (complete_open_last n4 n3 _ (times t ++ [(n1, Some n2)])) by reflexivity.
  cbn [uuid description notes app]. rewrite <- app_assoc. reflexivity.
Qed.

Lemma lifecycle_start_pause_start_complete_witness :
  seqM (start (mkdt 2024 7 3 9 0 0 0))
    (seqM (pause (mkdt 2024 7 3 10 0 0 0))
       (seqM (start (mkdt 2024 7 3 11 0 0 0)) (complete (mkdt 2024 7 3 12 0 0 0)))) task_c
  = (mkTask (uuid task_c) "Plan sprint" "COMPLETED"
       [(mkdt 2024 7 3 9 0 0 0, Some (mkdt 2024 7 3 10 0 0 0));
        (mkdt 2024 7 3 11 0 0 0, Some (mkdt 2024 7 3 12 0 0 0))] [], [], Ok tt).
Proof.
  exact (lifecycle_start_pause_start_complete _ _ _ _ task_c eq_refl eq_refl).
Defined.

(** X3: [start] on a task whose intervals are all closed (or that has
    none) never raises and prints nothing: it appends the open interval
    [(now, None)] and sets the status to RUNNING when it was CREATED or
    PAUSED, leaving any other status (RUNNING, COMPLETED) as it was. *)
Theorem start_when_idle (now : datetime) (t : Task) :
  forallb is_closed (times t) = true ->
  start now t
  = (mkTask (uuid t) (description t)
       (if is_status (status t) CREATED || is_status (status t) PAUSED
        then "RUNNING" else status t)
       (times t ++ [(now, None)]) (notes t), [], Ok tt).
Proof. apply start_closed. Qed.

Lemma start_when_idle_witness :
  start sample_now task_p
  = (mkTask (uuid task_p) "Write report" "RUNNING" (times task_p ++ [(sample_now, None)]) [],
     [], Ok tt).
Proof. exact (start_when_idle sample_now task_p eq_refl). Defined.

(** X4: [pause] and [complete] on a RUNNING task with no interval raise
    [IndexError] ([self.times[-1]]), after the status has already been set
    to PAUSED, resp. COMPLETED. *)
Theorem pause_complete_no_interval (now : datetime) (t : Task) :
  is_status (status t) RUNNING = true -> times t = [] ->
  pause now t = (set_status PAUSED t, [], Raise (IndexError "list index out of range"))
  /\ complete now t
     = (set_status COMPLETED t, [], Raise (IndexError "list index out of range")).
Proof.
  intros H Ht. unfold pause, complete. rewrite H. cbn [negb times set_status].
  rewrite Ht. split; reflexivity.
Qed.

Lemma pause_complete_no_interval_witness :
  pause sample_now task_r0 = (set_status PAUSED task_r0, [], Raise (IndexError "list index out of range"))
  /\ complete sample_now task_r0
     = (set_status COMPLETED task_r0, [], Raise (IndexError "list index out of range")).
Proof. exact (pause_complete_no_interval sample_now task_r0 eq_refl eq_refl). Defined.

(** ** Dicts *)

Lemma assoc_set_other {A : Type} (k k' : string) (v : A) (l : list (string * A)) :
  k <> k' -> assoc k (assoc_set k' v l) = assoc k l.
Proof.
  intros Hne. induction l as [|[k0 v0] l IH]; [reflexivity|].
  cbn [assoc_set]. destruct (String.eqb_spec k' k0) as [->|Hk]; cbn [assoc].
  - destruct (String.eqb_spec k k0); [congruence | reflexivity].
  - destruct (String.eqb k k0); [reflexivity | exact IH].
Qed.

Lemma assoc_set_same {A : Type} (k : string) (v v0 : A) (l : list (string * A)) :
  assoc k l = Some v0 -> assoc k (assoc_set k v l) = Some v.
Proof.
  induction l as [|[k0 w] l IH]; [discriminate|]. cbn [assoc assoc_set].
  destruct (String.eqb_spec k k0) as [->|Hk]; cbn [assoc].
  - rewrite String.eqb_refl. reflexivity.
  - intros E. apply String.eqb_neq in Hk. rewrite Hk. exact (IH E).
Qed.

Lemma assoc_snoc {A : Type} (k k' : string) (v : A) (l : list (string * A)) :
  assoc k (l ++ [(k', v)]) = match assoc k l with
                             | Some w => Some w
                             | None => if String.eqb k k' then Some v else None
                             end.
Proof.
  induction l as [|[k0 w] l IH]; [reflexivity|]. cbn [app assoc].
  destruct (String.eqb k k0); [reflexivity | exact IH].
Qed.

Lemma assoc_none_notin {A : Type} (k : string) (l : list (string * A)) :
  ~ In k (map fst l) -> assoc k l = None.
Proof.
  induction l as [|[k0 w] l IH]; intros H; [reflexivity|]. cbn [assoc].
  destruct (String.eqb_spec k k0) as [->|Hk].
  - exfalso. apply H. left. reflexivity.
  - apply IH. intros Hin. apply H. right. exact Hin.
Qed.

Lemma filter_nil_false {A : Type} (f : A -> bool) (l : list A) (x : A) :
  filter f l = [] -> In x l -> f x = false.
Proof.
  induction l as [|a l IH]; [intros _ []|]. cbn [filter In].
  destruct (f a) eqn:Fa; [discriminate|]. intros H [->|Hin]; [exact Fa | exact (IH H Hin)].
Qed.

Lemma prefix_refl (s : string) : String.prefix s s = true.
Proof.
  induction s as [|c s IH]; [reflexivity|]. cbn. destruct (ascii_dec c c); [exact IH | congruence].
Qed.

Lemma contains_refl (s : string) : contains s s = true.
Proof. destruct s; cbn [contains]; rewrite prefix_refl; reflexivity. Qed.

(** ** Updating and adding tasks *)

(** X5: [update_task] writes the file exactly when the action returns:
    after an exception the file keeps its previous content; after success
    it holds the serialisation of the document in memory. In both cases the
    working date, the other top-level data and the task lists of every other
    date are untouched. *)
Theorem update_task_write_discipline (now : datetime) (frag : string) (a : Actions)
  (note : option string) (d : Doc) :
  let '(d', out, r) := update_task now frag a note d in
  working_date d' = working_date d /\ other_data d' = other_data d
  /\ (forall k, k <> isoformat (working_date d) -> assoc k (tasks_data d') = assoc k (tasks_data d))
  /\ (forall e, r = Raise e -> written d' = written d)
  /\ (r = Ok tt -> written d'
                   = (other_data d', map (fun '(k, ts) => (k, map serialize ts)) (tasks_data d'))).
Proof.
  unfold update_task.
  destruct (assoc (isoformat (working_date d)) (tasks_data d)) as [ts|];
    [|repeat split; intros; first [reflexivity | discriminate]].
  destruct (select_task frag ts) as [t|e];
    [|repeat split; intros; first [reflexivity | discriminate]].
  destruct (run_action a note now t) as [[t' out] [[]|e]];
    cbn [write set_tasks_data working_date other_data tasks_data written];
    repeat split; intros;
    first [reflexivity | discriminate | apply assoc_set_other; assumption].
Qed.

Lemma update_task_write_discipline_witness :
  written (fst (fst (update_task sample_now "5f0c" NOTE None c7_doc))) = written c7_doc.
Proof.
  pose proof (update_task_write_discipline sample_now "5f0c" NOTE None c7_doc) as H.
  destruct (update_task sample_now "5f0c" NOTE None c7_doc) as [[d' out] r] eqn:E.
  destruct H as [_ [_ [_ [H _]]]]. cbn [fst]. apply (H (AttributeError "Expected valid note but got None")).
  vm_compute in E. injection E as _ _ <-. reflexivity.
Defined.

Lemma add_task_effect (u desc : string) (dt : date) (d : Doc) :
  let '(d', out, r) := add_task u desc dt d in
  r = Ok tt /\ out = ["task added: " ++ u]%string
  /\ assoc (isoformat dt) (tasks_data d')
     = Some (old_tasks (isoformat dt) d ++ [mkTask (UUIDObj u) desc "CREATED" [] []])
  /\ (forall k, k <> isoformat dt -> assoc k (tasks_data d') = assoc k (tasks_data d))
  /\ written d' = (other_data d, map (fun '(k, ts) => (k, map serialize ts)) (tasks_data d')).
Proof.
  unfold add_task, old_tasks, dict_setdefault.
  destruct (assoc (isoformat dt) (tasks_data d)) as [ts|] eqn:E.
  - rewrite E. cbn [write set_tasks_data tasks_data written other_data].
    repeat split.
    + exact (assoc_set_same _ _ _ _ E).
    + intros k Hk. apply assoc_set_other. exact Hk.
  - rewrite assoc_snoc, E, String.eqb_refl.
    cbn [write set_tasks_data tasks_data written other_data].
    repeat split.
    + apply (assoc_set_same _ _ []). rewrite assoc_snoc, E, String.eqb_refl. reflexivity.
    + intros k Hk. rewrite assoc_set_other by exact Hk. rewrite assoc_snoc.
      destruct (assoc k (tasks_data d)); [reflexivity|].
      apply String.eqb_neq in Hk. rewrite Hk. reflexivity.
Qed.

(** X6: [add_task] appends a CREATED task with no interval and no note at
    the end of the list of its date (created, last in the dict, when
    missing), leaves the lists of all other dates as they were, writes the
    file and prints "task added: <uuid>". *)
Theorem add_task_appends (u desc : string) (dt : date) (d : Doc) :
  let '(d', out, r) := add_task u desc dt d in
  r = Ok tt /\ out = ["task added: " ++ u]%string
  /\ assoc (isoformat dt) (tasks_data d')
     = Some (old_tasks (isoformat dt) d ++ [mkTask (UUIDObj u) desc "CREATED" [] []])
  /\ (forall k, k <> isoformat dt -> assoc k (tasks_data d') = assoc k (tasks_data d))
  /\ written d' = (other_data d, map (fun '(k, ts) => (k, map serialize ts)) (tasks_data d')).
Proof. exact (add_task_effect u desc dt d). Qed.

(** X7: adding a task on the working date and then starting it by its full
    uuid (which no other task of that date contains) leaves it RUNNING with
    the single open interval [(now, None)] at the end of the date's list,
    the other tasks of the list as they were, and the file written; the
    only output is the "task added" line. *)
Theorem add_then_start (u desc : string) (now : datetime) (d : Doc) :
  (forall ts, assoc (isoformat (working_date d)) (tasks_data d) = Some ts ->
              filter (matches u) ts = []) ->
  exists d',
    seqM (add_task u desc (working_date d)) (update_task now u START None) d
      = (d', ["task added: " ++ u]%string, Ok tt)
    /\ assoc (isoformat (working_date d)) (tasks_data d')
       = Some (old_tasks (isoformat (working_date d)) d
               ++ [mkTask (UUIDObj u) desc "RUNNING" [(now, None)] []])
    /\ written d' = (other_data d, map (fun '(k, ts) => (k, map serialize ts)) (tasks_data d')).
Proof.
  intros Hfresh.
  set (key := isoformat (working_date d)).
  pose proof (add_task_effect u desc (working_date d) d) as HA.
  destruct (add_task u desc (working_date d) d) as [[d1 o1] r1] eqn:EA.
  destruct HA as [-> [-> [Hk [_ Hw]]]].
  assert (Wd : working_date d1 = working_date d).
  { unfold add_task in EA. injection EA as <-. reflexivity. }
  assert (Od : other_data d1 = other_data d).
  { unfold add_task in EA. injection EA as <-. reflexivity. }
  assert (Hold : filter (matches u) (old_tasks key d) = []).
  { unfold old_tasks. fold key in Hfresh.
    destruct (assoc key (tasks_data d)) as [ts|]; [exact (Hfresh ts eq_refl) | reflexivity]. }
  assert (Hsel : filter (matches u) (old_tasks key d ++ [added_task u desc]) = [added_task u desc]).
  { rewrite filter_app, Hold. cbn. unfold matches. cbn [uuid uuid_str].
    rewrite contains_refl. reflexivity. }
  unfold seqM. rewrite EA. unfold update_task. rewrite Wd. fold key. fold key in Hk.
  change (mkTask (UUIDObj u) desc "CREATED" [] []) with (added_task u desc) in Hk.
  rewrite Hk. unfold select_task. rewrite Hsel. cbn [run_action].
  assert (Est : start now (added_task u desc)
                = (mkTask (UUIDObj u) desc "RUNNING" [(now, None)] [], [], Ok tt))
    by reflexivity.
  rewrite Est.
  replace (map (fun x => if matches u x then mkTask (UUIDObj u) desc "RUNNING" [(now, None)] []
                         else x) (old_tasks key d ++ [added_task u desc]))
    with (old_tasks key d ++ [mkTask (UUIDObj u) desc "RUNNING" [(now, None)] []]).
  2:{ rewrite map_app. cbn [map]. unfold matches at 2. cbn [uuid uuid_str added_task].
      rewrite contains_refl. f_equal. rewrite <- (map_id (old_tasks key d)) at 1.
      apply map_ext_in. intros x Hx. rewrite (filter_nil_false _ _ x Hold Hx). reflexivity. }
  eexists. split; [reflexivity|].
  cbn [write set_tasks_data tasks_data written other_data]. rewrite Od. split; [|reflexivity].
  exact (assoc_set_same _ _ _ _ Hk).
Qed.

Lemma add_then_start_witness :
  exists d',
    seqM (add_task "0b9e61d4-2f7a-4c38-9e15-6d2a8f4c7b10" "Plan sprint" (working_date c7_doc))
         (update_task sample_now "0b9e61d4-2f7a-4c38-9e15-6d2a8f4c7b10" START None) c7_doc
      = (d', ["task added: 0b9e61d4-2f7a-4c38-9e15-6d2a8f4c7b10"], Ok tt)
    /\ assoc "2024-07-03" (tasks_data d')
       = Some [task_a; task_b; mkTask (UUIDObj "0b9e61d4-2f7a-4c38-9e15-6d2a8f4c7b10")
                                  "Plan sprint" "RUNNING" [(sample_now, None)] []]
    /\ written d' = (other_data c7_doc,
                     map (fun '(k, ts) => (k, map serialize ts)) (tasks_data d')).
Proof.
  apply (add_then_start "0b9e61d4-2f7a-4c38-9e15-6d2a8f4c7b10" "Plan sprint" sample_now c7_doc).
  intros ts E. vm_compute in E. injection E as <-. vm_compute. reflexivity.
Defined.

(** ** The error scan *)

Lemma collect_errors_in (today_key : string) (l : list (string * list Task))
  (k : string) (es : list Task) :
  In (k, es) (collect_errors today_key l)
  <-> exists ts, In (k, ts) l /\ k <> today_key /\ es = filter incomplete ts /\ es <> [].
Proof.
  induction l as [|[dt ts] l IH]; cbn [collect_errors].
  - split; [intros []|]. intros [ts [[] _]].
  - destruct (String.eqb_spec dt today_key) as [->|Hne].
    + rewrite IH. split.
      * intros [ts' [Hin H]]. exists ts'. split; [right; exact Hin | exact H].
      * intros [ts' [[E|Hin] [Hk H]]]; [injection E as -> ->; contradiction|].
        exists ts'. split; [exact Hin | split; [exact Hk | exact H]].
    + fold incomplete.
      assert (Hrest : In (k, es) (collect_errors today_key l) ->
                      exists ts0, In (k, ts0) ((dt, ts) :: l) /\ k <> today_key
                                  /\ es = filter incomplete ts0 /\ es <> []).
      { intros Hin. apply IH in Hin as [ts0 [Hin H]]. exists ts0. split; [right; exact Hin | exact H]. }
      change (fun t => negb (is_status (status t) COMPLETED)) with incomplete.
      destruct (filter incomplete ts) as [|e0 es0] eqn:F.
      * split; [exact Hrest|]. intros [ts0 [[E|Hin] [Hk [He Hnil]]]].
        -- injection E as -> ->. rewrite F in He. contradiction.
        -- apply IH. exists ts0. split; [exact Hin | split; [exact Hk | split; assumption]].
      * split.
        -- intros [E|Hin]; [|exact (Hrest Hin)].
           injection E as -> <-. exists ts. split; [left; reflexivity|].
           split; [exact Hne | split; [symmetry; exact F | discriminate]].
        -- intros [ts0 [[E|Hin] [Hk [He Hnil]]]].
           ++ injection E as -> ->. left. rewrite He, F. reflexivity.
           ++ right. apply IH. exists ts0. split; [exact Hin | split; [exact Hk | split; assumption]].
Qed.

(** X8: a date appears in the error scan exactly when it is not today's
    date and has unfinished tasks, which are listed, in order. *)
Theorem collect_errors_spec (today_key : string) (l : list (string * list Task))
  (k : string) (es : list Task) :
  In (k, es) (collect_errors today_key l)
  <-> exists ts, In (k, ts) l /\ k <> today_key /\ es = filter incomplete ts /\ es <> [].
Proof. exact (collect_errors_in today_key l k es). Qed.

Lemma collect_errors_spec_witness :
  In ("2024-07-03", [task_a]) (collect_errors "2024-07-04" (tasks_data c10_doc))
  <-> exists ts, In ("2024-07-03", ts) (tasks_data c10_doc) /\ "2024-07-03" <> "2024-07-04"
                 /\ [task_a] = filter incomplete ts /\ [task_a] <> [].
Proof. exact (collect_errors_spec "2024-07-04" (tasks_data c10_doc) "2024-07-03" [task_a]). Defined.

(** X9: [errors] never reports a task: it prints "No errors found" when no
    other date has an unfinished task; otherwise it prints the header of the
    first such date and fails with [AttributeError] on the missing
    [Task.report]. The document is not changed. *)
Theorem errors_outcome (now : datetime) (d : Doc) :
  (collect_errors (isoformat (date_of now)) (tasks_data d) = [] ->
     errors now d = (d, ["No errors found"], Ok tt))
  /\ (forall dt ts rest, collect_errors (isoformat (date_of now)) (tasks_data d) = (dt, ts) :: rest ->
       errors now d = (d, [date_header dt],
                       Raise (AttributeError "'Task' object has no attribute 'report'"))).
Proof.
  split.
  - intros E. unfold errors. rewrite E. reflexivity.
  - intros dt ts rest E. unfold errors. rewrite E.
    assert (Hne : ts <> []).
    { assert (Hin : In (dt, ts) (collect_errors (isoformat (date_of now)) (tasks_data d)))
        by (rewrite E; left; reflexivity).
      apply collect_errors_in in Hin as [? [_ [_ [_ H]]]]. exact H. }
    destruct ts as [|t ts']; [contradiction|]. reflexivity.
Qed.

Lemma errors_outcome_witness :
  errors sample_now c7_doc = (c7_doc, ["No errors found"], Ok tt).
Proof. apply (proj1 (errors_outcome sample_now c7_doc)). vm_compute. reflexivity. Defined.

(** ** Reading the file *)

Lemma lower_char_n_not_digit (c : ascii) : lower_char c = "n"%char -> anyd c = false.
Proof.
  destruct c as [[] [] [] [] [] [] [] []]; vm_compute; intros H;
    first [reflexivity | discriminate H].
Qed.

(** X10: the open-interval sentinel is accepted only as an end: a record
    whose first interval starts with "None" (in any case) is rejected by
    [deserialize] with [ValueError]. *)
Theorem deserialize_rejects_none_start (u desc st x y : string)
  (rest : list (string * string)) (ns : list string) :
  String.eqb (lower x) "none" = true ->
  deserialize (mkSer u desc st ((x, y) :: rest) ns)
  = Raise (ValueError "time data does not match format").
Proof.
  intros H. apply String.eqb_eq in H.
  destruct x as [|c x']; [discriminate H|]. cbn [lower] in H. injection H as Hc _.
  pose proof (lower_char_n_not_digit c Hc) as Hd.
  assert (R : strptime (String c x') = Raise (ValueError "time data does not match format")).
  { unfold strptime, re_match, p_Y.
    destruct x' as [|b [|b2 [|b3 x'']]]; try reflexivity. rewrite Hd. reflexivity. }
  unfold deserialize. cbn [s_times deser_times]. rewrite R. reflexivity.
Qed.

Lemma deserialize_rejects_none_start_witness :
  deserialize (mkSer sample_uuid "Write report" "RUNNING" [("None", "2024-07-03T09:00")] [])
  = Raise (ValueError "time data does not match format").
Proof. apply deserialize_rejects_none_start. reflexivity. Defined.

(** ** Writing and reading back the file *)

Lemma dict_set_fresh {A : Type} (k : string) (v : A) (l : list (string * A)) :
  ~ In k (map fst l) -> dict_set k v l = l ++ [(k, v)].
Proof. intros H. unfold dict_set. rewrite (assoc_none_notin k l H). reflexivity. Qed.

Lemma toml_content_fresh (acc : list (string * TomlValue)) (l : list (string * list SerTask)) :
  NoDup (map fst l) -> (forall k, In k (map fst l) -> ~ In k (map fst acc)) ->
  fold_left (fun acc '(k, ts) => dict_set k (TTasks ts) acc) l acc
  = acc ++ map (fun '(k, ts) => (k, TTasks ts)) l.
Proof.
  revert acc. induction l as [|[k ts] l IH]; intros acc Hnd Hfr; cbn [fold_left map].
  - rewrite app_nil_r. reflexivity.
  - inversion Hnd as [|? ? Hk Hnd']; subst.
    rewrite dict_set_fresh by (apply Hfr; left; reflexivity).
    rewrite IH, <- app_assoc; [reflexivity | exact Hnd'|].
    intros k' Hin Hin'. rewrite map_app, in_app_iff in Hin'. destruct Hin' as [Hin'|[E|[]]].
    + exact (Hfr k' (or_intror Hin) Hin').
    + cbn in E. subst k'. exact (Hk Hin).
Qed.

Lemma map_fst_other (o : list (string * string)) :
  map fst (map (fun '(k, v) => (k, TOther v)) o) = map fst o.
Proof. induction o as [|[k v] o IH]; cbn; [reflexivity | now rewrite IH]. Qed.

Lemma map_fst_ser (l : list (string * list Task)) :
  map fst (map (fun '(k, ts) => (k, map serialize ts)) l) = map fst l.
Proof. induction l as [|[k v] l IH]; cbn; [reflexivity | now rewrite IH]. Qed.

Lemma parse_loop_other (o : list (string * string)) (rest : list (string * TomlValue))
  (acc : list (string * string)) (tk : list (string * list Task)) :
  NoDup (map fst o) -> (forall k, In k (map fst o) -> ~ In k (map fst acc)) ->
  parse_loop (map (fun '(k, v) => (k, TOther v)) o ++ rest) acc tk
  = parse_loop rest (acc ++ o) tk.
Proof.
  revert acc. induction o as [|[k v] o IH]; intros acc Hnd Hfr; cbn [map app parse_loop].
  - rewrite app_nil_r. reflexivity.
  - inversion Hnd as [|? ? Hk Hnd']; subst.
    rewrite dict_set_fresh by (apply Hfr; left; reflexivity).
    rewrite IH, <- app_assoc; [reflexivity | exact Hnd'|].
    intros k' Hin Hin'. rewrite map_app, in_app_iff in Hin'. destruct Hin' as [Hin'|[E|[]]].
    + exact (Hfr k' (or_intror Hin) Hin').
    + cbn in E. subst k'. exact (Hk Hin).
Qed.

Lemma deserialize_serialize (t : Task) :
  Forall interval_ok (times t) -> deserialize (serialize t) = Ok (reloaded_task t).
Proof.
  intros H. unfold deserialize, serialize. cbn [s_times s_uuid s_description s_status s_notes].
  change (map (fun '(x, y) => (strftime x, ser_end y)) (times t))
    with (map ser_interval (times t)).
  rewrite deser_ser_times by exact H. reflexivity.
Qed.

Lemma deser_all_serialize (ts : list Task) :
  Forall (fun t => Forall interval_ok (times t)) ts ->
  deser_all (map serialize ts) = Ok (map reloaded_task ts).
Proof.
  induction 1 as [|t ts Ht _ IH]; [reflexivity|]. cbn [map deser_all].
  rewrite deserialize_serialize by exact Ht. rewrite IH. reflexivity.
Qed.

Lemma parse_loop_tasks (l : list (string * list Task)) (acc : list (string * string))
  (tk : list (string * list Task)) :
  NoDup (map fst l) -> (forall k, In k (map fst l) -> ~ In k (map fst tk)) ->
  Forall (fun kts => Forall (fun t => Forall interval_ok (times t)) (snd kts)) l ->
  parse_loop (map (fun '(k, ts) => (k, TTasks ts))
                  (map (fun '(k, ts) => (k, map serialize ts)) l)) acc tk
  = Ok (acc, tk ++ map (fun '(k, ts) => (k, map reloaded_task ts)) l).
Proof.
  revert tk. induction l as [|[k ts] l IH]; intros tk Hnd Hfr Hok; cbn [map parse_loop].
  - rewrite app_nil_r. reflexivity.
  - inversion Hnd as [|? ? Hk Hnd']; subst. inversion Hok as [|? ? Hts Hok']; subst.
    rewrite deser_all_serialize by exact Hts.
    rewrite dict_set_fresh by (apply Hfr; left; reflexivity).
    rewrite IH, <- app_assoc; [reflexivity | exact Hnd' | | exact Hok'].
    intros k' Hin Hin'. rewrite map_app, in_app_iff in Hin'. destruct Hin' as [Hin'|[E|[]]].
    + exact (Hfr k' (or_intror Hin) Hin').
    + cbn in E. subst k'. exact (Hk Hin).
Qed.

Lemma nodup_app_disjoint {A : Type} (l1 l2 : list A) (x : A) :
  NoDup (l1 ++ l2) -> In x l1 -> In x l2 -> False.
Proof.
  induction l1 as [|a l1 IH]; [intros _ []|]. cbn [app]. intros Hnd Hx1 Hx2.
  inversion Hnd as [|? ? Ha Hnd']; subst. destruct Hx1 as [->|Hx1].
  - apply Ha. apply in_or_app. right. exact Hx2.
  - exact (IH Hnd' Hx1 Hx2).
Qed.

(** X11: writing the document and parsing the file back ([write], then
    [_parse] on what [toml.load] returns) gives the same top-level data and
    the same dates with their tasks in order, each task with its uuid as a
    string and its timestamps truncated to the minute; this holds when the
    keys are distinct and every timestamp is a datetime of a year
    1000-9999. *)
Theorem parse_write_roundtrip (d : Doc) :
  NoDup (map fst (other_data d) ++ map fst (tasks_data d)) ->
  Forall (fun kts => Forall (fun t => Forall interval_ok (times t)) (snd kts)) (tasks_data d) ->
  parse (toml_content (written (write d)))
  = Ok (other_data d, map (fun '(k, ts) => (k, map reloaded_task ts)) (tasks_data d)).
Proof.
  intros Hnd Hok. unfold parse, toml_content. cbn [write written fst snd].
  pose proof (NoDup_app_remove_r _ _ Hnd) as Hnd_o.
  pose proof (NoDup_app_remove_l _ _ Hnd) as Hnd_t.
  assert (Hdisj : forall k, In k (map fst (tasks_data d)) -> ~ In k (map fst (other_data d))).
  { intros k Ht Ho. exact (nodup_app_disjoint _ _ k Hnd Ho Ht). }
  rewrite toml_content_fresh.
  - rewrite parse_loop_other by (try exact Hnd_o; intros k _ []).
    rewrite parse_loop_tasks by (try exact Hnd_t; try exact Hok; intros k _ []).
    reflexivity.
  - rewrite map_fst_ser. exact Hnd_t.
  - intros k Hk. rewrite map_fst_ser in Hk. rewrite map_fst_other. exact (Hdisj k Hk).
Qed.

Lemma parse_write_roundtrip_witness :
  parse (toml_content (written (write c7_doc)))
  = Ok (other_data c7_doc, map (fun '(k, ts) => (k, map reloaded_task ts)) (tasks_data c7_doc)).
Proof.
  apply parse_write_roundtrip.
  - vm_compute. repeat constructor; vm_compute; intuition discriminate.
  - constructor; [|constructor]. cbn [snd tasks_data c7_doc].
    constructor; [|constructor; [|constructor]].
    + constructor; [|constructor]. cbn. split; [reflexivity | intros x E; discriminate E].
    + constructor; [|constructor]. cbn. split; [reflexivity|].
      intros x E. injection E as <-. reflexivity.
Defined.

(** ** Cleaning text for LaTeX *)

Lemma string_app_assoc (a b c : string) : (a ++ (b ++ c) = (a ++ b) ++ c)%string.
Proof. induction a as [|x a IH]; cbn; [reflexivity | now rewrite IH]. Qed.

Lemma all_chars_app (f : ascii -> bool) (a b : string) :
  all_chars f (a ++ b) = all_chars f a && all_chars f b.
Proof.
  unfold all_chars. induction a as [|c a IH]; [reflexivity|]. cbn. rewrite IH.
  apply andb_assoc.
Qed.

Lemma split_aux_lstrip (s : string) : split_aux (lstrip s) "" = split_aux s "".
Proof.
  induction s as [|c s IH]; [reflexivity|]. cbn [lstrip].
  destruct (is_space c) eqn:E; [|reflexivity].
  rewrite IH. cbn [split_aux]. rewrite E. reflexivity.
Qed.

Lemma split_aux_rstrip (s cur : string) : split_aux (rstrip s) cur = split_aux s cur.
Proof.
  revert cur. induction s as [|c s IH]; intros cur; [reflexivity|]. cbn [rstrip].
  destruct (is_space c) eqn:Ec; cbn [andb].
  - destruct (String.eqb_spec (rstrip s) "") as [Er|Er].
    + cbn [split_aux]. rewrite Ec, <- (IH ""), Er. cbn.
      destruct (String.eqb cur ""); reflexivity.
    + cbn [split_aux]. rewrite Ec, !IH. reflexivity.
  - cbn [split_aux]. rewrite Ec, IH. reflexivity.
Qed.

Lemma split_aux_word (w s cur : string) :
  no_space w = true -> split_aux (w ++ s) cur = split_aux s (cur ++ w).
Proof.
  revert cur. induction w as [|c w IH]; intros cur H.
  - cbn. rewrite append_empty_r. reflexivity.
  - unfold no_space, all_chars in H. cbn in H. apply andb_true_iff in H as [Hc H].
    cbn [String.append split_aux]. apply negb_true_iff in Hc. rewrite Hc.
    rewrite IH by exact H. rewrite <- string_app_assoc. reflexivity.
Qed.

Lemma split_concat (ws : list string) :
  Forall (fun w => w <> "" /\ no_space w = true) ws ->
  split_aux (String.concat " " ws) "" = ws.
Proof.
  induction 1 as [|w ws [Hw Hs] Hws IH]; [reflexivity|].
  destruct ws as [|w2 ws].
  - cbn [String.concat]. rewrite <- (append_empty_r w), split_aux_word by exact Hs.
    cbn. rewrite append_empty_r. apply String.eqb_neq in Hw. rewrite Hw. reflexivity.
  - change (String.concat " " (w :: w2 :: ws)) with (w ++ " " ++ String.concat " " (w2 :: ws))%string.
    rewrite split_aux_word by exact Hs.
    change (" " ++ String.concat " " (w2 :: ws))%string
      with (String " "%char (String.concat " " (w2 :: ws))).
    change ("" ++ w)%string with w. cbn [split_aux].
    assert (Hsp : is_space " "%char = true) by reflexivity.
    apply String.eqb_neq in Hw. rewrite Hsp, Hw. f_equal. exact IH.
Qed.

Lemma split_aux_words (s cur : string) :
  no_space cur = true -> Forall (fun w => w <> "" /\ no_space w = true) (split_aux s cur).
Proof.
  revert cur. induction s as [|c s IH]; intros cur Hcur; cbn [split_aux].
  - destruct (String.eqb_spec cur "") as [_|Hne]; [constructor|].
    constructor; [split; assumption | constructor].
  - destruct (is_space c) eqn:Ec.
    + destruct (String.eqb_spec cur "") as [_|Hne]; [apply IH; reflexivity|].
      constructor; [split; assumption | apply IH; reflexivity].
    + apply IH. unfold no_space. rewrite all_chars_app. fold (no_space cur). rewrite Hcur.
      unfold all_chars. cbn. rewrite Ec. reflexivity.
Qed.

Lemma escape_underscores_no_space (w : string) :
  no_space w = true -> no_space (escape_underscores w) = true.
Proof.
  unfold no_space, all_chars. induction w as [|c w IH]; [reflexivity|]. cbn.
  intros H. apply andb_true_iff in H as [Hc H].
  destruct (Ascii.eqb c "_"%char) eqn:E; cbn; rewrite IH by exact H.
  - reflexivity.
  - rewrite Hc. reflexivity.
Qed.

Lemma clean_word_ok (w : string) :
  w <> "" /\ no_space w = true -> clean_word w <> "" /\ no_space (clean_word w) = true.
Proof.
  intros [Hw Hs]. unfold clean_word. destruct (String.prefix "http" (str_strip w)).
  - split; [discriminate|]. unfold no_space. rewrite !all_chars_app. fold (no_space w).
    rewrite Hs. reflexivity.
  - split; [|exact (escape_underscores_no_space w Hs)].
    destruct w as [|c w]; [contradiction|]. cbn. destruct (Ascii.eqb c "_"%char); discriminate.
Qed.

(** X12: [tex_clean_up] cleans each word on its own and normalises the
    whitespace: the words of its result are exactly the cleaned words of
    the input, in order. *)
Theorem tex_clean_up_words (s : string) :
  str_split (tex_clean_up s) = map clean_word (str_split s).
Proof.
  unfold tex_clean_up, str_split, str_strip.
  rewrite split_aux_rstrip, split_aux_lstrip.
  apply split_concat. apply Forall_map.
  apply (Forall_impl _ clean_word_ok). apply split_aux_words. reflexivity.
Qed.

Lemma unescape_cons (c : ascii) (w : string) :
  tex_unescape (String c (escape_underscores w)) = String c (tex_unescape (escape_underscores w)).
Proof.
  destruct w as [|d w]; [reflexivity|]. cbn [escape_underscores].
  destruct (Ascii.eqb d "_"%char) eqn:Ed.
  - cbn [tex_unescape]. rewrite andb_false_r. reflexivity.
  - cbn [tex_unescape]. rewrite Ed, andb_false_r. reflexivity.
Qed.

(** X13: the underscore escaping of a non-link word loses nothing: reading
    every backslash-underscore pair back as an underscore gives the word. *)
Theorem escape_underscores_roundtrip (w : string) :
  tex_unescape (escape_underscores w) = w.
Proof.
  induction w as [|c w IH]; [reflexivity|]. cbn [escape_underscores].
  destruct (Ascii.eqb_spec c "_"%char) as [->|Hc].
  - cbn [tex_unescape]. rewrite IH. reflexivity.
  - rewrite unescape_cons, IH. reflexivity.
Qed.

(** ** The daily report *)



Lemma minutes_ok_same_day (now : datetime) (t : Task) :
  Forall (same_day now) (times t) -> exists m, minutes now t = Ok m.
Proof.
  intros H. destruct (minutes_loop_same_day now (times t) 0 H) as [n E].
  unfold minutes. rewrite E. eexists; reflexivity.
Qed.

Lemma daily_loop_ok (float_str total_line : Q -> string) (now : datetime) (fmt : string)
  (ts : list Task) (total : option Q) :
  (fmt = "email" \/ fmt = "terminal") ->
  Forall (fun t => Forall (same_day now) (times t)) ts ->
  exists total', daily_loop float_str total_line now fmt ts total
                 = (map (report_line float_str now fmt) ts ++ [total_text total_line total'], None).
Proof.
  intros Hf H. revert total. induction H as [|t ts Ht _ IH]; intros total.
  - exists total. reflexivity.
  - destruct (minutes_ok_same_day now t Ht) as [m Hm].
    assert (Et : terminal_report float_str now t
                 = Ok ("- " ++ description t ++ ": " ++ float_str m ++ " "
                       ++ (if negb (is_status (status t) COMPLETED) then status t else "")
                       ++ notes_text (notes t))%string)
      by (unfold terminal_report; rewrite Hm; reflexivity).
    destruct (IH (add_total total m)) as [tot E]. exists tot.
    cbn [daily_loop map app]. unfold report_line at 1.
    destruct Hf as [-> | ->].
    + rewrite String.eqb_refl, Et, Hm, E. reflexivity.
    + replace (String.eqb "terminal" "email") with false by reflexivity.
      rewrite String.eqb_refl. unfold terminal_report_with_uuid. rewrite Et, Hm, E. reflexivity.
Qed.

(** X15: in the email and terminal formats, when no interval of the
    working date's tasks ends on another day, [report_daily] prints one
    line per task, in order (the task's [terminal_report], prefixed with
    its uuid in the terminal format), then the total line, and raises
    nothing. *)
Theorem report_daily_lines (float_str total_line : Q -> string)
  (json_dumps : list SerTask -> string) (now : datetime) (fmt : string) (d : Doc)
  (ts : list Task) :
  (fmt = "email" \/ fmt = "terminal") ->
  assoc (isoformat (working_date d)) (tasks_data d) = Some ts ->
  Forall (fun t => Forall (same_day now) (times t)) ts ->
  exists total, report_daily float_str total_line json_dumps now fmt d
                = (map (report_line float_str now fmt) ts ++ [total_text total_line total], None).
Proof.
  intros Hf Ha H. unfold report_daily.
  assert (Hj : String.eqb fmt "json" = false) by (destruct Hf as [-> | ->]; reflexivity).
  rewrite Hj, Ha. exact (daily_loop_ok float_str total_line now fmt ts None Hf H).
Qed.

Lemma report_daily_lines_witness :
  exists total, report_daily sample_float_str sample_total_line sample_json sample_now "email" c7_doc
                = (map (report_line sample_float_str sample_now "email") [task_a; task_b]
                   ++ [total_text sample_total_line total], None).
Proof.
  apply (report_daily_lines sample_float_str sample_total_line sample_json sample_now "email"
           c7_doc [task_a; task_b]).
  - left. reflexivity.
  - reflexivity.
  - constructor; [|constructor; [|constructor]]; cbn [times task_a task_b].
    + constructor; [reflexivity | constructor].
    + constructor; [reflexivity | constructor].
Defined.

Lemma daily_loop_cross (float_str total_line : Q -> string) (now : datetime) (fmt : string)
  (ts : list Task) (total : option Q) (t : Task) :
  (fmt = "email" \/ fmt = "terminal") -> In t ts -> Exists (crosses_day now) (times t) ->
  exists out msg, daily_loop float_str total_line now fmt ts total
                  = (out, Some (PyExn (RuntimeError msg))).
Proof.
  intros Hf Hin Hx. revert total. induction ts as [|t0 ts IH]; [destruct Hin|]. intros total.
  cbn [daily_loop].
  destruct (minutes now t0) as [m|e] eqn:Hm.
  - assert (Ht0 : t0 <> t).
    { intros ->. unfold minutes in Hm. rewrite (minutes_loop_cross now (times t) 0 Hx) in Hm.
      discriminate Hm. }
    assert (Hin' : In t ts) by (destruct Hin as [E|H]; [contradiction | exact H]).
    destruct (IH Hin' (add_total total m)) as [out [msg E]].
    assert (Hl : exists l, (if String.eqb fmt "email" then Some (terminal_report float_str now t0)
                            else if String.eqb fmt "terminal"
                                 then Some (terminal_report_with_uuid float_str now t0)
                                 else None) = Some (Ok l)).
    { unfold terminal_report_with_uuid, terminal_report. rewrite Hm.
      destruct Hf as [-> | ->]; cbn; eexists; reflexivity. }
    destruct Hl as [l Hl]. rewrite Hl, E. exists (l :: out), msg. reflexivity.
  - destruct (minutes_raises_runtime now t0 e Hm) as [msg ->].
    exists [], msg. destruct Hf as [-> | ->].
    + rewrite String.eqb_refl. unfold terminal_report. rewrite Hm. reflexivity.
    + replace (String.eqb "terminal" "email") with false by reflexivity.
      rewrite String.eqb_refl. unfold terminal_report_with_uuid, terminal_report.
      rewrite Hm. reflexivity.
Qed.

(** X16: in the email and terminal formats, a task of the working date
    with an interval ending on another day makes [report_daily] raise
    [RuntimeError]: no total is printed. *)
Theorem report_daily_cross (float_str total_line : Q -> string)
  (json_dumps : list SerTask -> string) (now : datetime) (fmt : string) (d : Doc)
  (ts : list Task) (t : Task) :
  (fmt = "email" \/ fmt = "terminal") ->
  assoc (isoformat (working_date d)) (tasks_data d) = Some ts ->
  In t ts -> Exists (crosses_day now) (times t) ->
  exists out msg, report_daily float_str total_line json_dumps now fmt d
                  = (out, Some (PyExn (RuntimeError msg))).
Proof.
  intros Hf Ha Hin Hx. unfold report_daily.
  assert (Hj : String.eqb fmt "json" = false) by (destruct Hf as [-> | ->]; reflexivity).
  rewrite Hj, Ha. exact (daily_loop_cross float_str total_line now fmt ts None t Hf Hin Hx).
Qed.

Lemma report_daily_cross_witness :
  exists out msg, report_daily sample_float_str sample_total_line sample_json sample_now
                    "terminal" cross_doc = (out, Some (PyExn (RuntimeError msg))).
Proof.
  apply (report_daily_cross sample_float_str sample_total_line sample_json sample_now "terminal"
           cross_doc [task_b; c6_cross] c6_cross).
  - right. reflexivity.
  - reflexivity.
  - right. left. reflexivity.
  - constructor. cbn. discriminate.
Defined.

(** ** The monthly report *)










